(** * Cape Cod Tides: a shallow embedding of [src/index.js]

    The skill's business logic (station directory, city and date
    resolvers, the dialog handlers, the tide request and the tide
    extraction loop) is transcribed function by function.  JavaScript
    values are given the smallest Rocq types that keep the behaviour the
    code relies on: truthiness of slot values, [NaN], property lookup
    through the prototype of an object literal, exceptions thrown by a
    property access on [undefined] or by an undeclared identifier.

    Everything the file [require]s but the repository does not ship in
    [src/] ([alexaDateUtil], [AlexaSkill], the [Date] parser of the host,
    the remote service) is a parameter of the development. *)

From Stdlib Require Import ZArith QArith Qround Qabs String Ascii List Bool Lia Lqa.
From Stdlib Require Import DecimalString.
Import ListNotations.

Local Open Scope Z_scope.
Local Open Scope string_scope.

(** ** JavaScript numbers *)

(** A Number is [NaN] or a finite value.  A finite double is a rational,
    and every operation [getFormattedHeight] performs on one ([<],
    [Math.abs], [% 1], [Math.floor], [Math.ceil], [* -1]) is exact on
    doubles, so the finite values are carried as rationals.  The
    infinities are left out: no decimal literal of the ones read below
    denotes one. *)
Inductive number : Type :=
| NaN
| Num (q : Q).

(** An integral Number: what [Math.floor], [Math.ceil] and the getters of
    a [Date] return. *)
Inductive whole : Type :=
| WNaN
| Int (z : Z).

(** [a < b]; every comparison with [NaN] is false. *)
Definition lt (a b : number) : bool :=
  match a, b with
  | Num x, Num y => negb (Qle_bool y x)
  | _, _ => false
  end.

Definition Math_abs (a : number) : number :=
  match a with
  | NaN => NaN
  | Num x => Num (Qabs x)
  end.

Definition Math_floor (a : number) : whole :=
  match a with
  | NaN => WNaN
  | Num x => Int (Qfloor x)
  end.

Definition Math_ceil (a : number) : whole :=
  match a with
  | NaN => WNaN
  | Num x => Int (Qceiling x)
  end.

(** Truncation towards zero. *)
Definition Qtruncate (x : Q) : Z :=
  if Qle_bool 0 x then Qfloor x else Qceiling x.

(** [a % 1]: the remainder keeps the sign of the dividend, so it is what
    is left of [a] after truncation towards zero. *)
Definition rem1 (a : number) : number :=
  match a with
  | NaN => NaN
  | Num x => Num (x - inject_Z (Qtruncate x))
  end.

(** [w * -1]; [-0] prints as [0], so it needs no value of its own. *)
Definition negate (w : whole) : whole :=
  match w with
  | WNaN => WNaN
  | Int z => Int (- z)
  end.

Definition string_of_Z (z : Z) : string :=
  NilZero.string_of_int (Z.to_int z).

(** Number-to-string conversion of an integral Number, as its decimal
    digits.  That is what JavaScript prints for every integer up to
    2^53 in size; above, a Number prints the shortest digits that read
    back as the same double, and from 1e21 an exponent.  Statements
    that print a height keep it below 2^52. *)
Definition Number_toString (w : whole) : string :=
  match w with
  | WNaN => "NaN"
  | Int z => string_of_Z z
  end.

(** ** Reading decimal literals

    [parseFloat] reads the longest prefix that is a decimal literal,
    the implicit string-to-number conversion ([ToNumber]) wants the whole
    string to be one.  The NOAA payload writes levels as plain decimals
    (["4.012"], ["-0.3"]), and those are what is read here: a sign,
    digits, a point and digits.  Exponents, [Infinity], hexadecimal
    literals and surrounding white space are not read, and the value is
    the exact rational the literal denotes, not rounded to a double, so
    a literal of more digits than a double holds can fall in another
    band than the code puts it in.  The statements below are about
    Numbers, or take the reading of levels as it comes; the examples
    use short plain decimals. *)

Definition digit_of (c : ascii) : option Z :=
  let n := nat_of_ascii c in
  if (48 <=? n)%nat && (n <=? 57)%nat then Some (Z.of_nat (n - 48)) else None.

(** The digits at the head of [s]: their value after [acc], how many
    there were after [count], and the rest of the string. *)
Fixpoint scanDigits (s : string) (acc : Z) (count : nat) : Z * nat * string :=
  match s with
  | String c s' =>
      match digit_of c with
      | Some d => scanDigits s' (10 * acc + d) (S count)
      | None => (acc, count, s)
      end
  | EmptyString => (acc, count, s)
  end.

Definition scanSign (s : string) : bool * string :=
  match s with
  | String "-"%char r => (true, r)
  | String "+"%char r => (false, r)
  | _ => (false, s)
  end.

(** Sign, digits, and an optional point with more digits; at least one
    digit in all.  Returns the value and the unread rest. *)
Definition scanDecimal (s : string) : option (Q * string) :=
  let '(neg, s1) := scanSign s in
  let '(ip, ni, s2) := scanDigits s1 0 0 in
  let '(fp, nf, s3) :=
    match s2 with
    | String "."%char r => scanDigits r 0 0
    | _ => (0, 0%nat, s2)
    end in
  if (ni + nf =? 0)%nat then None
  else
    let scale := Pos.pow 10 (Pos.of_nat nf) in
    let mag := if (nf =? 0)%nat then inject_Z ip
               else Qmake (ip * Zpos scale + fp) scale in
    Some (if neg then Qopp mag else mag, s3).

Definition parseFloat (s : string) : number :=
  match scanDecimal s with
  | Some (q, _) => Num q
  | None => NaN
  end.

Definition ToNumber (s : string) : number :=
  match s with
  | EmptyString => Num 0
  | _ =>
      match scanDecimal s with
      | Some (q, EmptyString) => Num q
      | _ => NaN
      end
  end.

(** ** Height formatting ([getFormattedHeight], lines 465-492) *)

(** The rounding, lines 472-484: the remainder text and the whole-number
    part chosen for a height. *)
Definition halfFoot (height : number) : string * whole :=
  let remainder := rem1 height in
  if lt remainder (Num (1 # 4)) then ("", Math_floor height)
  else if lt remainder (Num (3 # 4)) then (" and a half", Math_floor height)
  else ("", Math_ceil height).

(** The whole-number part and the remainder text of the result.
    [height] is the Number the argument denotes: the function only ever
    uses its argument through [<], [Math.abs], [%], [Math.floor] and
    [Math.ceil], all of which convert a string first. *)
Definition heightParts (height : number) : whole * string :=
  let isNegative := lt height (Num 0) in
  let height := if isNegative then Math_abs height else height in
  let '(remainderText, feet) := halfFoot height in
  let feet := if isNegative then negate feet else feet in
  (feet, remainderText).

Definition getFormattedHeight (height : number) : string :=
  let '(feet, remainderText) := heightParts height in
  Number_toString feet ++ remainderText ++ " feet".

(** ** Strings *)

(** [String.prototype.toLowerCase] on the ASCII letters; the other
    characters of a slot value are left as they are. *)
Definition lowerChar (c : ascii) : ascii :=
  let n := nat_of_ascii c in
  if (65 <=? n)%nat && (n <=? 90)%nat then ascii_of_nat (n + 32) else c.

Fixpoint toLowerCase (s : string) : string :=
  match s with
  | EmptyString => EmptyString
  | String c s' => String (lowerChar c) (toLowerCase s')
  end.

(** Truthiness of a string: every string but the empty one. *)
Definition truthy (s : string) : bool :=
  match s with
  | EmptyString => false
  | String _ _ => true
  end.

(** An optional string spliced into a text. *)
Definition textOf (o : option string) : string :=
  match o with
  | Some s => s
  | None => "undefined"
  end.

(** ** The station directory ([STATIONS], lines 130-148) *)

(** The own properties of the object literal, in the order written
    (the order [for ... in] visits them in). *)
Definition STATIONS : list (string * Z) :=
  [ ("plymouth", 8446493);
    ("barnstable", 8447335);
    ("sesuit harbor", 8447241);
    ("wellfleet", 8446613);
    ("provincetown", 8446121);
    ("chatham stage harbor", 8447505);
    ("harwichport wychmere harbor", 8447506);
    ("south yarmouth bass river", 8447504);
    ("dennisport", 8447525);
    ("hyannisport", 8447605);
    ("falmouth", 8447865);
    ("woods hole", 8447939);
    ("marion", 8447385);
    ("new bedford", 8447584);
    ("westport", 8447975);
    ("duxbury", 8446166);
    ("hingham", 8444775) ].

Fixpoint assoc (key : string) (l : list (string * Z)) : option Z :=
  match l with
  | [] => None
  | (k, x) :: l' => if String.eqb key k then Some x else assoc key l'
  end.

(** [STATIONS] is an object literal, so [STATIONS[key]] also finds what
    [Object.prototype] defines.  These are its property names. *)
Definition Object_prototype : list string :=
  [ "constructor"; "hasOwnProperty"; "isPrototypeOf"; "propertyIsEnumerable";
    "toLocaleString"; "toString"; "valueOf"; "__proto__";
    "__defineGetter__"; "__defineSetter__"; "__lookupGetter__"; "__lookupSetter__" ].

(** What a property read of [STATIONS] evaluates to. *)
Inductive property : Type :=
| StationId (id : Z)
| Inherited (name : string)
| Undefined.

Definition inherits (key : string) : bool :=
  existsb (String.eqb key) Object_prototype.

Definition STATIONS_get (key : string) : property :=
  match assoc key STATIONS with
  | Some id => StationId id
  | None => if inherits key then Inherited key else Undefined
  end.

Definition truthyProperty (p : property) : bool :=
  match p with
  | StationId id => negb (id =? 0)%Z
  | Inherited _ => true
  | Undefined => false
  end.

(** A property value spliced into the query string. *)
Definition propertyText (p : property) : string :=
  match p with
  | StationId id => string_of_Z id
  | Inherited name =>
      if String.eqb name "__proto__" then "[object Object]"
      else if String.eqb name "constructor" then "function Object() { [native code] }"
      else "function " ++ name ++ "() { [native code] }"
  | Undefined => "undefined"
  end.

(** [getAllStationsText], lines 565-572: the inherited properties are not
    enumerable, the loop visits the own ones only. *)
Definition getAllStationsText : string :=
  fold_left (fun stationList entry => stationList ++ fst entry ++ ", ") STATIONS "".

(** ** Requests, session and responses *)

Record slot : Type := { value : option string }.

(** [intent.slots]: a slot can be missing, or be there without a value. *)
Record intent : Type := { City : option slot; Date : option slot }.

(** [slot && slot.value]: the value, when the slot is there and its value
    is truthy. *)
Definition slotValue (s : option slot) : option string :=
  match s with
  | Some {| value := Some x |} => if truthy x then Some x else None
  | _ => None
  end.

(** What [getCityStationFromIntent] returns. *)
Record cityStation : Type :=
  { error : bool; city : option string; station : property }.

(** What [getDateFromIntent] returns. *)
Record dateInfo : Type :=
  { displayDate : string; requestDateParam : string }.

(** [session.attributes], as far as the skill reads and writes it. *)
Record session : Type :=
  { attributes_city : option cityStation; attributes_date : option dateInfo }.

Definition newSession : session :=
  {| attributes_city := None; attributes_date := None |}.

(** What a turn does to the outside: the calls of [https.get] and of the
    methods of the [response] object ([response.ask], which expects an
    answer from the user, and [response.tellWithCard]), in the order
    made. *)
Inductive event : Type :=
| HttpsGet (url : string)
| Ask (speechOutput repromptText : string)
| TellWithCard (speechOutput cardTitle cardContent : string).

(** Exceptions the engine raises in the code below. *)
Inductive exception : Type :=
| TypeError
| ReferenceError
| SyntaxError.

Inductive result (A : Type) : Type :=
| Ok (a : A)
| Throw (e : exception).
Arguments Ok {A} a.
Arguments Throw {A} e.

(** A handled turn: the session attributes it leaves, the calls it made,
    and whether the code ran to its end or an exception escaped. *)
Record turn : Type :=
  { attributes : session; calls : list event; outcome : result unit }.

(** ** The host's [Date] *)

Inductive JsDate : Type :=
| InvalidDate
| DateTime (year month date hours minutes : Z).

Definition getFullYear (d : JsDate) : whole :=
  match d with InvalidDate => WNaN | DateTime y _ _ _ _ => Int y end.

(** Months count from 0. *)
Definition getMonth (d : JsDate) : whole :=
  match d with InvalidDate => WNaN | DateTime _ m _ _ _ => Int m end.

Definition getDate (d : JsDate) : whole :=
  match d with InvalidDate => WNaN | DateTime _ _ x _ _ => Int x end.

Definition plus1 (w : whole) : whole :=
  match w with WNaN => WNaN | Int z => Int (z + 1) end.

(** [x < 10 ? '0' + x : x], then spliced into a string. *)
Definition pad2 (w : whole) : string :=
  match w with
  | WNaN => Number_toString w
  | Int z => if (z <? 10)%Z then "0" ++ Number_toString w else Number_toString w
  end.

(** ** Tide predictions *)

Record prediction : Type := { t : string; v : string }.

(** The remote JSON payload, as far as the code reads it: an [error]
    object with its message, a [predictions] array. *)
Record noaaResponse : Type :=
  { noaa_error : option string; predictions : option (list prediction) }.

Record highTideResponse : Type :=
  { firstHighTideTime : string; firstHighTideHeight : string;
    lowTideTime : string; lowTideHeight : string;
    secondHighTideTime : string; secondHighTideHeight : string }.

(** [isTideIncreasing], lines 457-459. *)
Definition isTideIncreasing (lastPrediction currentPrediction : prediction) : bool :=
  lt (parseFloat (v lastPrediction)) (parseFloat (v currentPrediction)).

(** The variables of the loop of [findHighTide]. *)
Record scan : Type :=
  { lastPrediction : option prediction;
    firstHighTide : option prediction;
    secondHighTide : option prediction;
    lowTide : option prediction;
    firstTideDone : bool }.

Definition scan0 : scan :=
  {| lastPrediction := None; firstHighTide := None; secondHighTide := None;
     lowTide := None; firstTideDone := false |}.

Definition setLast (p : prediction) (s : scan) : scan :=
  {| lastPrediction := Some p; firstHighTide := firstHighTide s;
     secondHighTide := secondHighTide s; lowTide := lowTide s;
     firstTideDone := firstTideDone s |}.

Definition setFirstHigh (p : prediction) (s : scan) : scan :=
  {| lastPrediction := lastPrediction s; firstHighTide := Some p;
     secondHighTide := secondHighTide s; lowTide := lowTide s;
     firstTideDone := firstTideDone s |}.

Definition setSecondHigh (p : prediction) (s : scan) : scan :=
  {| lastPrediction := lastPrediction s; firstHighTide := firstHighTide s;
     secondHighTide := Some p; lowTide := lowTide s;
     firstTideDone := firstTideDone s |}.

Definition setLow (p : prediction) (s : scan) : scan :=
  {| lastPrediction := lastPrediction s; firstHighTide := firstHighTide s;
     secondHighTide := secondHighTide s; lowTide := Some p;
     firstTideDone := firstTideDone s |}.

Definition setDone (s : scan) : scan :=
  {| lastPrediction := lastPrediction s; firstHighTide := firstHighTide s;
     secondHighTide := secondHighTide s; lowTide := lowTide s;
     firstTideDone := true |}.

Definition isSome {A : Type} (o : option A) : bool :=
  match o with Some _ => true | None => false end.

(** The [for] loop of [findHighTide], lines 416-445, from the state [s]
    over the predictions still to visit. *)
Fixpoint scanPredictions (l : list prediction) (s : scan) : scan :=
  match l with
  | [] => s
  | prediction :: rest =>
      match lastPrediction s with
      | None => scanPredictions rest (setLast prediction s)
      | Some last =>
          if isTideIncreasing last prediction then
            let s1 := if negb (firstTideDone s) then setFirstHigh prediction s
                      else setSecondHigh prediction s in
            scanPredictions rest (setLast prediction s1)
          else
            (* we're decreasing *)
            let '(s1, break) :=
              if negb (firstTideDone s) && isSome (firstHighTide s) then (setDone s, false)
              else if isSome (secondHighTide s) then (s, true)
              else (s, false) in
            if break then s1
            else
              let s2 := if firstTideDone s1 then setLow prediction s1 else s1 in
              scanPredictions rest (setLast prediction s2)
      end
  end.

(** ** The remote service *)

(** What the host delivers to the listeners of one [https.get]: an
    ['error'] event, or a response with its status code and body.  The
    body is given by what [JSON.parse] makes of it; [None] when the text
    is not JSON and [JSON.parse] throws. *)
Inductive delivery : Type :=
| RequestError (message : string)
| Response (statusCode : Z) (body : option noaaResponse).

(** The arguments of one call of [tideResponseCallback]. *)
Inductive callbackArgs : Type :=
| WithError (message : string)
| WithTides (highTideResponse : highTideResponse).

Definition endpoint : string := "https://tidesandcurrents.noaa.gov/api/datagetter".

(** The address [makeTideRequest] asks for, lines 350-354. *)
Definition requestUrl (station : property) (date : dateInfo) : string :=
  let datum := "MLLW" in
  let queryString := "?" ++ requestDateParam date in
  let queryString := queryString ++ "&station=" ++ propertyText station in
  let queryString := queryString ++ "&product=predictions&datum=" ++ datum
    ++ "&application=Alexa.CapeCod.Tides&units=english&time_zone=lst_ldt&format=json" in
  endpoint ++ queryString.

Section Skill.

(** [new Date(string)]: how the host reads a date or a timestamp. *)
Variable Date_new : string -> JsDate.

(** [alexaDateUtil.getFormattedDate] and [alexaDateUtil.getFormattedTime];
    the module is not among the sources. *)
Variable getFormattedDate : JsDate -> string.
Variable getFormattedTime : JsDate -> string.

(** What the remote service does with a request for an address. *)
Variable service : string -> delivery.

(** [findHighTide], lines 410-455.  Reading [.t] of a reading the loop
    never set is a property access on [undefined]. *)
Definition findHighTide (noaaResponseObj : noaaResponse) : result highTideResponse :=
  match predictions noaaResponseObj with
  | None => Throw TypeError
  | Some predictions =>
      let s := scanPredictions predictions scan0 in
      match firstHighTide s, lowTide s, secondHighTide s with
      | Some firstHighTide, Some lowTide, Some secondHighTide =>
          Ok {| firstHighTideTime := getFormattedTime (Date_new (t firstHighTide));
                firstHighTideHeight := getFormattedHeight (ToNumber (v firstHighTide));
                lowTideTime := getFormattedTime (Date_new (t lowTide));
                lowTideHeight := getFormattedHeight (ToNumber (v lowTide));
                secondHighTideTime := getFormattedTime (Date_new (t secondHighTide));
                secondHighTideHeight := getFormattedHeight (ToNumber (v secondHighTide)) |}
      | _, _, _ => Throw TypeError
      end
  end.

(** The ['end'] listener, lines 388-399.  [noaaResponseObj] is not
    declared in [makeTideRequest] (its variable is [noaaResponseObject]),
    so the branch of an [error] payload throws when it evaluates the
    argument of its first [console.log]. *)
Definition onEnd (body : option noaaResponse) : list callbackArgs * result unit :=
  match body with
  | None => ([], Throw SyntaxError)
  | Some noaaResponseObject =>
      if isSome (noaa_error noaaResponseObject) then ([], Throw ReferenceError)
      else
        match findHighTide noaaResponseObject with
        | Ok highTide => ([WithTides highTide], Ok tt)
        | Throw e => ([], Throw e)
        end
  end.

(** The response listener, lines 375-399: the status check does not
    return, the body is read to its end whatever the status. *)
Definition onResponse (statusCode : Z) (body : option noaaResponse)
  : list callbackArgs * result unit :=
  let first := if negb (statusCode =? 200)%Z then [WithError "Non 200 Response"] else [] in
  let '(rest, r) := onEnd body in
  ((first ++ rest)%list, r).

(** [makeTideRequest], lines 348-404: the address asked for, the calls
    of [tideResponseCallback] in the order made, and how the listeners
    ended. *)
Definition makeTideRequest (station : property) (date : dateInfo)
  : string * list callbackArgs * result unit :=
  let url := requestUrl station date in
  match service url with
  | RequestError message => (url, [WithError message], Ok tt)
  | Response statusCode body =>
      let '(cbs, r) := onResponse statusCode body in (url, cbs, r)
  end.

(** [tideResponseCallback], lines 325-340. *)
Definition tideResponseCallback (cityStation : cityStation) (date : dateInfo)
    (args : callbackArgs) : event :=
  let speechOutput :=
    match args with
    | WithError _ =>
        "Sorry, the National Oceanic tide service is experiencing a problem. Please try again later"
    | WithTides highTideResponse =>
        displayDate date ++ " in " ++ textOf (city cityStation)
          ++ ", the first high tide will be around "
          ++ firstHighTideTime highTideResponse
          ++ ", followed by a low tide at around " ++ lowTideTime highTideResponse
          ++ ". The second high tide will be around "
          ++ secondHighTideTime highTideResponse
    end in
  TellWithCard speechOutput "CapeCodTides" speechOutput.

(** [getFinalTideResponse], lines 322-341. *)
Definition getFinalTideResponse (cityStation : cityStation) (date : dateInfo)
    (session : session) : turn :=
  let '(url, cbs, r) := makeTideRequest (station cityStation) date in
  {| attributes := session;
     calls := HttpsGet url :: map (tideResponseCallback cityStation date) cbs;
     outcome := r |}.

(** [getCityStationFromIntent], lines 497-529. *)
Definition getCityStationFromIntent (intent : intent) (assignDefault : bool) : cityStation :=
  match slotValue (City intent) with
  | None =>
      if negb assignDefault then
        {| error := true; city := None; station := Undefined |}
      else
        {| error := false; city := Some "Plymouth"; station := STATIONS_get "plymouth" |}
  | Some cityName =>
      if truthyProperty (STATIONS_get (toLowerCase cityName)) then
        {| error := false; city := Some cityName;
           station := STATIONS_get (toLowerCase cityName) |}
      else
        {| error := true; city := Some cityName; station := Undefined |}
  end.

(** [getDateFromIntent], lines 535-563.  The result is what the callers
    test with [!date]: [None] would be a falsy value. *)
Definition getDateFromIntent (intent : intent) : option dateInfo :=
  match slotValue (Date intent) with
  | None =>
      Some {| displayDate := "Today"; requestDateParam := "date=today" |}
  | Some value =>
      let date := Date_new value in
      let month := pad2 (plus1 (getMonth date)) in
      let dayOfMonth := pad2 (getDate date) in
      let requestDay := "begin_date=" ++ Number_toString (getFullYear date)
        ++ month ++ dayOfMonth ++ "&range=24" in
      Some {| displayDate := getFormattedDate date; requestDateParam := requestDay |}
  end.

Definition respond (session : session) (e : event) : turn :=
  {| attributes := session; calls := [e]; outcome := Ok tt |}.

(** The prompt of an unknown city, built at lines 208-211 and 292-295. *)
Definition cityReprompt : string :=
  "Currently, I know tide information for these coastal towns: " ++ getAllStationsText
    ++ "Which town would you like tide information for?".

Definition citySpeech (cityStation : cityStation) (repromptText : string) : string :=
  match city cityStation with
  | Some name =>
      if truthy name
      then "I'm sorry, I don't have any data for " ++ name ++ ". " ++ repromptText
      else repromptText
  | None => repromptText
  end.

Definition dateReprompt : string :=
  "Please try again saying a day of the week, for example, Saturday. "
    ++ "For which date would you like tide information?".

(** [handleSupportedCitiesRequest], lines 190-197. *)
Definition handleSupportedCitiesRequest (intent : intent) (session : session) : turn :=
  let repromptText := "Which town?" in
  let speechOutput := "Currently, I know tide information for these towns: "
    ++ getAllStationsText ++ repromptText in
  respond session (Ask speechOutput repromptText).

(** [handleCityDialogRequest], lines 202-227. *)
Definition handleCityDialogRequest (intent : intent) (session : session) : turn :=
  let cityStation := getCityStationFromIntent intent false in
  if error cityStation then
    let repromptText := cityReprompt in
    respond session (Ask (citySpeech cityStation repromptText) repromptText)
  else
    match attributes_date session with
    | Some date => getFinalTideResponse cityStation date session
    | None =>
        let session :=
          {| attributes_city := Some cityStation;
             attributes_date := attributes_date session |} in
        let speechOutput := "For which date?" in
        let repromptText := "For which date would you like tide information for "
          ++ textOf (city cityStation) ++ "?" in
        respond session (Ask speechOutput repromptText)
    end.

(** [handleDateDialogRequest], lines 232-257. *)
Definition handleDateDialogRequest (intent : intent) (session : session) : turn :=
  match getDateFromIntent intent with
  | None =>
      let repromptText := dateReprompt in
      let speechOutput := "I'm sorry, I didn't understand that date. " ++ repromptText in
      respond session (Ask speechOutput repromptText)
  | Some date =>
      match attributes_city session with
      | Some cityStation => getFinalTideResponse cityStation date session
      | None =>
          let session :=
            {| attributes_city := attributes_city session;
               attributes_date := Some date |} in
          let speechOutput := "For which town would you like tide information for "
            ++ displayDate date ++ "?" in
          let repromptText := "For which town?" in
          respond session (Ask speechOutput repromptText)
      end
  end.

(** [handleNoSlotDialogRequest], lines 266-277. *)
Definition handleNoSlotDialogRequest (intent : intent) (session : session) : turn :=
  match attributes_city session with
  | Some _ =>
      let repromptText :=
        "Please try again saying a day of the week, for example, Saturday. " in
      let speechOutput := repromptText in
      respond session (Ask speechOutput repromptText)
  | None => handleSupportedCitiesRequest intent session
  end.

(** [handleOneshotTideRequest], lines 284-316. *)
Definition handleOneshotTideRequest (intent : intent) (session : session) : turn :=
  let cityStation := getCityStationFromIntent intent true in
  if error cityStation then
    let repromptText := cityReprompt in
    respond session (Ask (citySpeech cityStation repromptText) repromptText)
  else
    match getDateFromIntent intent with
    | None =>
        let session :=
          {| attributes_city := Some cityStation;
             attributes_date := attributes_date session |} in
        let repromptText := dateReprompt in
        let speechOutput := "I'm sorry, I didn't understand that date. " ++ repromptText in
        respond session (Ask speechOutput repromptText)
    | Some date => getFinalTideResponse cityStation date session
    end.

(** The handler of [DialogTideIntent], lines 94-106. *)
Definition DialogTideIntent (intent : intent) (session : session) : turn :=
  if isSome (slotValue (City intent)) then handleCityDialogRequest intent session
  else if isSome (slotValue (Date intent)) then handleDateDialogRequest intent session
  else handleNoSlotDialogRequest intent session.

(** The handler of [OneshotTideIntent], lines 89-92. *)
Definition OneshotTideIntent (intent : intent) (session : session) : turn :=
  handleOneshotTideRequest intent session.

End Skill.

(** ** Vocabulary of the statements *)

(** The remainder text of a height that ends on a half. *)
Definition halfText (half : bool) : string :=
  if half then " and a half" else "".

(** A run of samples after [prev], each strictly above the one before. *)
Fixpoint rising (prev : prediction) (l : list prediction) : bool :=
  match l with
  | [] => true
  | p :: l' => isTideIncreasing prev p && rising p l'
  end.

(** A run of samples after [prev], none above the one before. *)
Fixpoint falling (prev : prediction) (l : list prediction) : bool :=
  match l with
  | [] => true
  | p :: l' => negb (isTideIncreasing prev p) && falling p l'
  end.

Definition isUpper (c : ascii) : bool :=
  let n := nat_of_ascii c in (65 <=? n)%nat && (n <=? 90)%nat.

(** Two characters that are the same letter, in whatever case. *)
Definition sameLetter (c d : ascii) : bool :=
  Ascii.eqb c d
  || (isUpper c && Ascii.eqb d (lowerChar c))
  || (isUpper d && Ascii.eqb c (lowerChar d)).

(** Two strings that differ only in letter case. *)
Inductive differOnlyInCase : string -> string -> Prop :=
| case_nil : differOnlyInCase "" ""
| case_cons c d s s' :
    sameLetter c d = true -> differOnlyInCase s s' ->
    differOnlyInCase (String c s) (String d s').

Definition cityIntent (cityName : string) (date : option slot) : intent :=
  {| City := Some {| value := Some cityName |}; Date := date |}.

Definition isHttpsGet (e : event) : bool :=
  match e with HttpsGet _ => true | _ => false end.

(** ** A host for the examples

    A [Date] that reads the two forms the skill meets, [YYYY-MM-DD] of a
    date slot and [YYYY-MM-DD HH:MM] of a prediction, and renderings of a
    date and a time; anything else is an invalid date. *)

Definition twoDigits (s : string) : option (Z * string) :=
  match s with
  | String a (String b r) =>
      match digit_of a, digit_of b with
      | Some x, Some y => Some (10 * x + y, r)
      | _, _ => None
      end
  | _ => None
  end.

Definition expect (c : ascii) (s : string) : option string :=
  match s with
  | String d r => if Ascii.eqb c d then Some r else None
  | EmptyString => None
  end.

Definition bind {A B : Type} (o : option A) (f : A -> option B) : option B :=
  match o with
  | Some a => f a
  | None => None
  end.

Notation "' p <- o ;; k" := (bind o (fun p => k))
  (at level 61, p pattern, o at next level, right associativity).

Definition readDate (s : string) : option JsDate :=
  ' (hi, s) <- twoDigits s ;;
  ' (lo, s) <- twoDigits s ;;
  ' s <- expect "-" s ;;
  ' (month, s) <- twoDigits s ;;
  ' s <- expect "-" s ;;
  ' (day, s) <- twoDigits s ;;
  if negb ((1 <=? month)%Z && (month <=? 12)%Z && (1 <=? day)%Z && (day <=? 31)%Z) then None
  else
    match s with
    | EmptyString => Some (DateTime (100 * hi + lo) (month - 1) day 0 0)
    | _ =>
        ' s <- expect " " s ;;
        ' (hours, s) <- twoDigits s ;;
        ' s <- expect ":" s ;;
        ' (minutes, s) <- twoDigits s ;;
        match s with
        | EmptyString => Some (DateTime (100 * hi + lo) (month - 1) day hours minutes)
        | _ => None
        end
    end.

Definition exampleDate (s : string) : JsDate :=
  match readDate s with
  | Some d => d
  | None => InvalidDate
  end.

Definition exampleFormattedDate (d : JsDate) : string :=
  Number_toString (getFullYear d) ++ "/" ++ Number_toString (plus1 (getMonth d))
    ++ "/" ++ Number_toString (getDate d).

Definition exampleFormattedTime (d : JsDate) : string :=
  match d with
  | InvalidDate => "NaN:NaN"
  | DateTime _ _ _ hours minutes => string_of_Z hours ++ ":" ++ pad2 (Int minutes)
  end.

Definition sample (time level : string) : prediction :=
  {| t := "2017-09-23 " ++ time; v := level |}.

(** Rises to 4.0 at 06:00, falls to 0.5 at 12:00, rises to 6.0 at 18:00,
    falls afterwards. *)
Definition twoTides : list prediction :=
  [ sample "00:00" "1.2"; sample "03:00" "2.9"; sample "06:00" "4.0";
    sample "09:00" "2.2"; sample "12:00" "0.5";
    sample "15:00" "3.1"; sample "18:00" "6.0";
    sample "21:00" "5.4"; sample "23:54" "4.9" ].

(** Rises all day: no low tide, no second high. *)
Definition risingOnly : list prediction :=
  [ sample "00:00" "1.0"; sample "06:00" "2.0"; sample "12:00" "3.0" ].

Definition payload (l : list prediction) : noaaResponse :=
  {| noaa_error := None; predictions := Some l |}.

Definition errorPayload (message : string) : noaaResponse :=
  {| noaa_error := Some message; predictions := None |}.

(** A service that answers every request the same way. *)
Definition always (d : delivery) : string -> delivery := fun _ => d.

Definition valued (x : string) : option slot := Some {| value := Some x |}.

(** A service that answers 200 with the series [twoTides]. *)
Definition tidesService : string -> delivery :=
  always (Response 200 (Some (payload twoTides))).

(** ** Conversations

    The intents of [intentHandlers] (lines 88-125) that reach the tide
    logic, and a session carried over a sequence of them. *)

Inductive request : Type :=
| OneshotTide (i : intent)
| DialogTide (i : intent)
| SupportedCities (i : intent).

Section Conversations.

Variable Date_new : string -> JsDate.
Variable getFormattedDate : JsDate -> string.
Variable getFormattedTime : JsDate -> string.
Variable service : string -> delivery.

(** The dispatch of [intentHandlers] on these intents. *)
Definition handle (r : request) (session : session) : turn :=
  match r with
  | OneshotTide i =>
      OneshotTideIntent Date_new getFormattedDate getFormattedTime service i session
  | DialogTide i =>
      DialogTideIntent Date_new getFormattedDate getFormattedTime service i session
  | SupportedCities i => handleSupportedCitiesRequest i session
  end.

(** The session attributes after a sequence of requests, each handled
    with the attributes the one before left. *)
Fixpoint converse (rs : list request) (s : session) : session :=
  match rs with
  | [] => s
  | r :: rs' => converse rs' (attributes (handle r s))
  end.

End Conversations.

(** A city the resolver accepted: no error, a name, a truthy station. *)
Definition resolvedCity (c : cityStation) : bool :=
  negb (error c) && truthyProperty (station c)
  && match city c with Some name => truthy name | None => false end.

(** Session attributes the dialog can be in: a city and a date are never
    stored together, and a stored city is a resolved one. *)
Definition wellFormed (s : session) : bool :=
  match attributes_city s, attributes_date s with
  | Some _, Some _ => false
  | Some c, None => resolvedCity c
  | None, _ => true
  end.

Definition isTellWithCard (e : event) : bool :=
  match e with TellWithCard _ _ _ => true | _ => false end.

(** The states of the loop of [findHighTide] after its first sample:
    before any rise, on the first rise, on the fall after it, on the
    second rise.  The last sample read is the candidate of the phase. *)
Definition phaseStart (p : prediction) : scan :=
  {| lastPrediction := Some p; firstHighTide := None; secondHighTide := None;
     lowTide := None; firstTideDone := false |}.

Definition phaseFirstHigh (p : prediction) : scan :=
  {| lastPrediction := Some p; firstHighTide := Some p; secondHighTide := None;
     lowTide := None; firstTideDone := false |}.

Definition phaseLow (fh p : prediction) : scan :=
  {| lastPrediction := Some p; firstHighTide := Some fh; secondHighTide := None;
     lowTide := Some p; firstTideDone := true |}.

Definition phaseSecondHigh (fh low p : prediction) : scan :=
  {| lastPrediction := Some p; firstHighTide := Some fh; secondHighTide := Some p;
     lowTide := Some low; firstTideDone := true |}.

(** A series with two tides: after its first sample a run that does not
    rise (maybe empty), a rising run that ends in [top1], a run that does
    not rise and ends in [bottom], a rising run that ends in [top2], and
    then nothing or a sample that does not rise, with whatever follows. *)
Definition twoTideShape (l : list prediction) (top1 bottom top2 : prediction) : Prop :=
  exists start lead u up1 d down r up2 tail,
    l = (start :: lead ++ (u :: up1) ++ (d :: down) ++ (r :: up2) ++ tail)%list
    /\ falling start lead = true
    /\ rising (last lead start) (u :: up1) = true /\ top1 = last up1 u
    /\ falling top1 (d :: down) = true /\ bottom = last down d
    /\ rising bottom (r :: up2) = true /\ top2 = last up2 r
    /\ falling top2 (firstn 1 tail) = true.

(** What [findHighTide] returns for the extremes [top1], [bottom] and
    [top2]. *)
Definition tidesOf (Date_new : string -> JsDate) (getFormattedTime : JsDate -> string)
    (top1 bottom top2 : prediction) : highTideResponse :=
  {| firstHighTideTime := getFormattedTime (Date_new (t top1));
     firstHighTideHeight := getFormattedHeight (ToNumber (v top1));
     lowTideTime := getFormattedTime (Date_new (t bottom));
     lowTideHeight := getFormattedHeight (ToNumber (v bottom));
     secondHighTideTime := getFormattedTime (Date_new (t top2));
     secondHighTideHeight := getFormattedHeight (ToNumber (v top2)) |}.

(** Reading back a run of digits: its value, when the string is made of
    exactly [n] digits. *)
Definition readDigits (n : nat) (s : string) : option Z :=
  match scanDigits s 0 0 with
  | (z, count, EmptyString) => if (count =? n)%nat then Some z else None
  | _ => None
  end.

(** Whether the text of [z] reads back as [z], in exactly [n] digits. *)
Definition readsBack (n : nat) (text : Z -> string) (z : Z) : bool :=
  match readDigits n (text z) with
  | Some z' => (z' =? z)%Z
  | None => false
  end.

(** * Properties *)

(** ** Numbers and strings *)

Example parseFloat_reads_a_prefix :
  parseFloat "4.3" = Num (43 # 10)
  /\ parseFloat "4.5abc" = Num (45 # 10) /\ ToNumber "4.5abc" = NaN.
Proof. repeat split. Qed.

Example getFormattedHeight_of_strings :
  getFormattedHeight (ToNumber "4.354") = "4 and a half feet"
  /\ getFormattedHeight (ToNumber "-0.3") = "0 and a half feet"
  /\ getFormattedHeight (ToNumber "n/a") = "NaN feet".
Proof. repeat split. Qed.

Lemma lt_Num (x y : Q) : lt (Num x) (Num y) = true <-> (x < y)%Q.
Proof.
  unfold lt. rewrite negb_true_iff. split; intro H.
  - apply Qnot_le_lt. intro L. apply Qle_bool_iff in L. congruence.
  - destruct (Qle_bool y x) eqn:E; [|reflexivity].
    apply Qle_bool_iff in E. exfalso. apply (Qlt_not_le _ _ H E).
Qed.

Lemma lt_Num_false (x y : Q) : lt (Num x) (Num y) = false <-> (y <= x)%Q.
Proof. unfold lt. rewrite negb_false_iff. apply Qle_bool_iff. Qed.

Lemma Qceiling_floor_succ (x : Q) :
  (inject_Z (Qfloor x) < x)%Q -> Qceiling x = Qfloor x + 1.
Proof.
  intro H.
  pose proof (Qle_ceiling x) as Hc. pose proof (Qceiling_lt x) as Hc'.
  pose proof (Qlt_floor x) as Hf.
  assert (Qfloor x < Qceiling x).
  { rewrite Zlt_Qlt. eapply Qlt_le_trans; eassumption. }
  assert (Qceiling x - 1 < Qfloor x + 1).
  { rewrite Zlt_Qlt. eapply Qlt_trans; eassumption. }
  lia.
Qed.

Lemma string_of_Z_opp (n : Z) : 0 < n -> string_of_Z (- n) = "-" ++ string_of_Z n.
Proof. destruct n; try lia. intros _. reflexivity. Qed.

Lemma append_assoc (a b c : string) : (a ++ b) ++ c = a ++ b ++ c.
Proof. induction a as [|x a IH]; cbn; [reflexivity|now rewrite IH]. Qed.

Lemma lowerChar_idempotent (c : ascii) : lowerChar (lowerChar c) = lowerChar c.
Proof. destruct c as [[] [] [] [] [] [] [] []]; reflexivity. Qed.

Lemma sameLetter_lowerChar (c d : ascii) :
  sameLetter c d = true -> lowerChar c = lowerChar d.
Proof.
  unfold sameLetter. rewrite !orb_true_iff, !andb_true_iff.
  intros [[H|[_ H]]|[_ H]]; apply Ascii.eqb_eq in H; subst;
    now rewrite ?lowerChar_idempotent.
Qed.

Lemma differOnlyInCase_toLowerCase (a b : string) :
  differOnlyInCase a b -> toLowerCase a = toLowerCase b.
Proof.
  induction 1 as [|c d s s' Hc _ IH]; cbn; [reflexivity|].
  now rewrite (sameLetter_lowerChar c d Hc), IH.
Qed.

Lemma differOnlyInCase_truthy (a b : string) :
  differOnlyInCase a b -> truthy a = truthy b.
Proof. now destruct 1. Qed.

(** ** Height formatting *)

(** The rounding of a height that is not negative: the band its
    fractional part falls in decides the whole number and the half, and
    the value announced is within a quarter of the height. *)
Lemma halfFoot_bands (a : Q) :
  (0 <= a)%Q ->
  exists (n : Z) (half : bool),
    halfFoot (Num a) = (halfText half, Int n)
    /\ (let r := (a - inject_Z (Qfloor a))%Q in
        ((r < 1 # 4)%Q -> n = Qfloor a /\ half = false)
        /\ ((1 # 4 <= r)%Q /\ (r < 3 # 4)%Q -> n = Qfloor a /\ half = true)
        /\ ((3 # 4 <= r)%Q -> n = Qfloor a + 1 /\ half = false))
    /\ (Qabs (inject_Z n + (if half then 1 # 2 else 0) - a) <= 1 # 4)%Q
    /\ 0 <= n
    /\ ((3 # 4 <= a)%Q -> 0 < n).
Proof.
  intro Ha.
  pose proof (Qfloor_le a) as Hlo. pose proof (Qlt_floor a) as Hhi.
  rewrite inject_Z_plus in Hhi.
  assert (Hn : 0 <= Qfloor a).
  { assert (-1 < Qfloor a); [|lia]. rewrite Zlt_Qlt.
    change (inject_Z (-1)) with (-(1))%Q. change (inject_Z 1) with 1%Q in Hhi. lra. }
  change (inject_Z 1) with 1%Q in Hhi.
  assert (Ht : Qtruncate a = Qfloor a).
  { unfold Qtruncate. apply Qle_bool_iff in Ha. now rewrite Ha. }
  unfold halfFoot, rem1. rewrite Ht.
  destruct (lt (Num (a - inject_Z (Qfloor a))) (Num (1 # 4))) eqn:E1.
  - apply lt_Num in E1. exists (Qfloor a), false. cbn [halfText Math_floor].
    repeat split; try lra; try lia.
    + apply Qabs_Qle_condition. cbn zeta. split; lra.
    + intro. assert (0 < Qfloor a); [|lia].
      rewrite Zlt_Qlt. change (inject_Z 0) with 0%Q. lra.
  - apply lt_Num_false in E1.
    destruct (lt (Num (a - inject_Z (Qfloor a))) (Num (3 # 4))) eqn:E2.
    + apply lt_Num in E2. exists (Qfloor a), true. cbn [halfText Math_floor].
      repeat split; try lra; try lia.
      * apply Qabs_Qle_condition. split; lra.
      * intro. assert (0 < Qfloor a); [|lia].
        rewrite Zlt_Qlt. change (inject_Z 0) with 0%Q. lra.
    + apply lt_Num_false in E2.
      assert (Hc : Qceiling a = Qfloor a + 1) by (apply Qceiling_floor_succ; lra).
      exists (Qfloor a + 1), false. cbn [halfText Math_ceil]. rewrite Hc.
      repeat split; try lra; try lia.
      apply Qabs_Qle_condition. rewrite inject_Z_plus.
      change (inject_Z 1) with 1%Q. split; lra.
Qed.

(** X18.  For every height [q] below 2^52 in size that is not negative,
    or is [-0.75] or below, [getFormattedHeight] answers
    [<sign><n><half> feet]: [n] is the whole number, in decimal digits,
    that the fractional part [r] of [|q|] selects ([r < .25]: the whole
    number below; [.25 <= r < .75]: the whole number below, with
    [" and a half"]; [.75 <= r]: the whole number above), the value
    announced is within a quarter of [|q|], and the sign of a negative
    height is a leading ["-"].  So 4.1 gives ["4 feet"], 4.3 gives
    ["4 and a half feet"], 4.8 gives ["5 feet"] and -4.3 gives
    ["-4 and a half feet"]. *)
Theorem getFormattedHeight_half_foot :
  (forall q : Q, (0 <= q)%Q \/ (q <= - (3 # 4))%Q ->
    (Qabs q < inject_Z (2 ^ 52))%Q ->
    exists (n : Z) (half : bool),
      getFormattedHeight (Num q)
        = (if Qle_bool 0 q then "" else "-") ++ string_of_Z n ++ halfText half ++ " feet"
      /\ 0 <= n
      /\ (let r := (Qabs q - inject_Z (Qfloor (Qabs q)))%Q in
          ((r < 1 # 4)%Q -> n = Qfloor (Qabs q) /\ half = false)
          /\ ((1 # 4 <= r)%Q /\ (r < 3 # 4)%Q -> n = Qfloor (Qabs q) /\ half = true)
          /\ ((3 # 4 <= r)%Q -> n = Qfloor (Qabs q) + 1 /\ half = false))
      /\ (Qabs (inject_Z n + (if half then 1 # 2 else 0) - Qabs q) <= 1 # 4)%Q)
  /\ getFormattedHeight (Num (41 # 10)) = "4 feet"
  /\ getFormattedHeight (Num (43 # 10)) = "4 and a half feet"
  /\ getFormattedHeight (Num (48 # 10)) = "5 feet"
  /\ getFormattedHeight (Num (- (43 # 10))) = "-4 and a half feet".
Proof.
  split; [|repeat split].
  intros q Hq _. unfold getFormattedHeight, heightParts.
  destruct (Qle_bool 0 q) eqn:E.
  - apply Qle_bool_iff in E.
    destruct (halfFoot_bands q E) as (n & half & Hf & Hb & Hc & Hn & _).
    exists n, half.
    replace (lt (Num q) (Num 0)) with false by (symmetry; now apply lt_Num_false).
    rewrite Hf. cbn [Number_toString].
    pose proof (Qabs_pos q E) as Ha.
    rewrite (Qfloor_comp _ _ Ha).
    cbv zeta in *. destruct Hb as (Hb1 & Hb2 & Hb3).
    split; [reflexivity|]. split; [assumption|]. split.
    + split; [|split].
      * intro. apply Hb1. lra.
      * intros []. apply Hb2. split; lra.
      * intro. apply Hb3. lra.
    + apply Qabs_Qle_condition. apply Qabs_Qle_condition in Hc.
      destruct half; lra.
  - assert (Hneg : (q < 0)%Q).
    { apply Qnot_le_lt. intro L. apply Qle_bool_iff in L. congruence. }
    destruct Hq as [Hq|Hq]; [exfalso; lra|].
    assert (H34 : (3 # 4 <= Qabs q)%Q).
    { rewrite (Qabs_neg q) by lra. lra. }
    destruct (halfFoot_bands (Qabs q) (Qabs_nonneg q))
      as (n & half & Hf & Hb & Hc & Hn & Hp).
    exists n, half.
    replace (lt (Num q) (Num 0)) with true by (symmetry; now apply lt_Num).
    cbn [Math_abs]. rewrite Hf. cbn [negate Number_toString].
    rewrite (string_of_Z_opp n (Hp H34)).
    split; [reflexivity|]. split; [assumption|]. split; assumption.
Qed.

(** The theorem at -4.3. *)
Lemma getFormattedHeight_half_foot_minus_4_3 :
  exists (n : Z) (half : bool),
    getFormattedHeight (Num (- (43 # 10)))
      = "-" ++ string_of_Z n ++ halfText half ++ " feet"
    /\ 0 <= n
    /\ (let r := (Qabs (- (43 # 10)) - inject_Z (Qfloor (Qabs (- (43 # 10)))))%Q in
        ((r < 1 # 4)%Q -> n = Qfloor (Qabs (- (43 # 10))) /\ half = false)
        /\ ((1 # 4 <= r)%Q /\ (r < 3 # 4)%Q -> n = Qfloor (Qabs (- (43 # 10))) /\ half = true)
        /\ ((3 # 4 <= r)%Q -> n = Qfloor (Qabs (- (43 # 10))) + 1 /\ half = false))
    /\ (Qabs (inject_Z n + (if half then 1 # 2 else 0) - Qabs (- (43 # 10))) <= 1 # 4)%Q.
Proof.
  apply (proj1 getFormattedHeight_half_foot (- (43 # 10))%Q).
  - right. unfold Qle. simpl. lia.
  - reflexivity.
Defined.

(** C5, the code at the failing inputs.  The whole number of a height is
    written in digits and the sign as ["-"], where the claim and the
    comment above the function have words: 4.1 gives ["4 feet"], not
    ["four feet"], and -4.3 gives ["-4 and a half feet"], not ["negative
    four and a half feet"].  At -0.3 the sign is lost: ["0 and a half
    feet"]. *)
Lemma getFormattedHeight_writes_digits :
  getFormattedHeight (Num (41 # 10)) = "4 feet"
  /\ String.eqb (getFormattedHeight (Num (41 # 10))) "four feet" = false
  /\ getFormattedHeight (Num (- (43 # 10))) = "-4 and a half feet"
  /\ String.eqb (getFormattedHeight (Num (- (43 # 10)))) "negative four and a half feet"
     = false
  /\ getFormattedHeight (Num (- (3 # 10))) = "0 and a half feet".
Proof. repeat split. Qed.

(** ** Tide extraction *)

Section Extraction.

Variables fh low : prediction.

(** While the first tide is not done, a rising run moves the first
    high to its last sample. *)
Lemma scan_first_rise (l : list prediction) :
  forall (prev top : prediction) (fh0 : option prediction) (rest : list prediction),
    rising prev (l ++ [top]) = true ->
    scanPredictions (l ++ top :: rest)
      {| lastPrediction := Some prev; firstHighTide := fh0; secondHighTide := None;
         lowTide := None; firstTideDone := false |}
    = scanPredictions rest
      {| lastPrediction := Some top; firstHighTide := Some top; secondHighTide := None;
         lowTide := None; firstTideDone := false |}.
Proof.
  induction l as [|p l IH]; intros prev top f rest H; cbn in H;
    apply andb_true_iff in H as [Hp Hl].
  - cbn. now rewrite Hp.
  - cbn. rewrite Hp. cbn. now apply IH.
Qed.

(** After a first high, a falling run closes the first tide and moves
    the low to its last sample. *)
Lemma scan_fall (l : list prediction) :
  forall (prev bottom : prediction) (low0 : option prediction) (done : bool)
         (rest : list prediction),
    falling prev (l ++ [bottom]) = true ->
    scanPredictions (l ++ bottom :: rest)
      {| lastPrediction := Some prev; firstHighTide := Some fh; secondHighTide := None;
         lowTide := low0; firstTideDone := done |}
    = scanPredictions rest
      {| lastPrediction := Some bottom; firstHighTide := Some fh; secondHighTide := None;
         lowTide := Some bottom; firstTideDone := true |}.
Proof.
  induction l as [|p l IH]; intros prev bottom low0 done rest H; cbn in H;
    apply andb_true_iff in H as [Hp Hl]; apply negb_true_iff in Hp.
  - cbn. rewrite Hp. now destruct done.
  - cbn. rewrite Hp. destruct done; cbn; now apply IH.
Qed.

(** Once the first tide is done, a rising run moves the second high to
    its last sample. *)
Lemma scan_second_rise (l : list prediction) :
  forall (prev top : prediction) (sh0 : option prediction) (rest : list prediction),
    rising prev (l ++ [top]) = true ->
    scanPredictions (l ++ top :: rest)
      {| lastPrediction := Some prev; firstHighTide := Some fh; secondHighTide := sh0;
         lowTide := Some low; firstTideDone := true |}
    = scanPredictions rest
      {| lastPrediction := Some top; firstHighTide := Some fh; secondHighTide := Some top;
         lowTide := Some low; firstTideDone := true |}.
Proof.
  induction l as [|p l IH]; intros prev top sh0 rest H; cbn in H;
    apply andb_true_iff in H as [Hp Hl].
  - cbn. now rewrite Hp.
  - cbn. rewrite Hp. cbn. now apply IH.
Qed.

(** The first sample that does not rise after a second high ends the
    loop; what follows is not read. *)
Lemma scan_break (top sh after : prediction) (rest : list prediction) :
  isTideIncreasing top after = false ->
  scanPredictions (after :: rest)
    {| lastPrediction := Some top; firstHighTide := Some fh; secondHighTide := Some sh;
       lowTide := Some low; firstTideDone := true |}
  = {| lastPrediction := Some top; firstHighTide := Some fh; secondHighTide := Some sh;
       lowTide := Some low; firstTideDone := true |}.
Proof. intro H. cbn. now rewrite H. Qed.

End Extraction.

Lemma scan_two_tides (start top1 bottom top2 after : prediction)
    (up1 down up2 rest : list prediction) :
  rising start (up1 ++ [top1]) = true ->
  falling top1 (down ++ [bottom]) = true ->
  rising bottom (up2 ++ [top2]) = true ->
  isTideIncreasing top2 after = false ->
  scanPredictions
    (start :: up1 ++ top1 :: down ++ bottom :: up2 ++ top2 :: after :: rest) scan0
  = {| lastPrediction := Some top2; firstHighTide := Some top1;
       secondHighTide := Some top2; lowTide := Some bottom; firstTideDone := true |}.
Proof.
  intros H1 H2 H3 H4.
  change (scanPredictions (start :: ?l) scan0)
    with (scanPredictions l (setLast start scan0)).
  unfold setLast, scan0;
    cbn [lastPrediction firstHighTide secondHighTide lowTide firstTideDone].
  rewrite (scan_first_rise up1 _ _ _ _ H1).
  rewrite (scan_fall top1 down _ _ _ _ _ H2).
  rewrite (scan_second_rise top1 bottom up2 _ _ _ _ H3).
  now apply scan_break.
Qed.

(** A run that only rises never sets a low tide. *)
Lemma scan_rising_no_low (l : list prediction) :
  forall (prev : prediction) (fh0 : option prediction),
    rising prev l = true ->
    lowTide (scanPredictions l
      {| lastPrediction := Some prev; firstHighTide := fh0; secondHighTide := None;
         lowTide := None; firstTideDone := false |}) = None.
Proof.
  induction l as [|p l IH]; intros prev fh0 H; [reflexivity|].
  cbn in H. apply andb_true_iff in H as [Hp Hl].
  cbn. rewrite Hp. cbn. now apply IH.
Qed.

(** X6.  On every series that only rises, of whatever length,
    [findHighTide] throws a [TypeError]. *)
Theorem findHighTide_rising_throws
    (Date_new : string -> JsDate) (getFormattedTime : JsDate -> string)
    (start : prediction) (l : list prediction) :
  rising start l = true ->
  findHighTide Date_new getFormattedTime (payload (start :: l)) = Throw TypeError.
Proof.
  intro H. unfold findHighTide, payload. cbn [predictions].
  change (scanPredictions (start :: l) scan0)
    with (scanPredictions l (setLast start scan0)).
  unfold setLast, scan0;
    cbn [lastPrediction firstHighTide secondHighTide lowTide firstTideDone].
  rewrite (scan_rising_no_low l start None H).
  now destruct (firstHighTide _).
Qed.

(** [findHighTide_rising_throws] at the series [risingOnly]. *)
Lemma findHighTide_rising_throws_sample :
  findHighTide exampleDate exampleFormattedTime (payload risingOnly) = Throw TypeError.
Proof.
  exact (findHighTide_rising_throws exampleDate exampleFormattedTime
           (sample "00:00" "1.0") [sample "06:00" "2.0"; sample "12:00" "3.0"] eq_refl).
Defined.

(** X19.  For every series that starts at [start], rises
    (each sample strictly above the one before) to [top1], falls (no
    sample above the one before) to [bottom], rises to [top2] and then
    has a sample [after] that does not rise, whatever follows,
    [findHighTide] returns the first high at the time of [top1], the low
    at the time of [bottom] and the second high at the time of [top2],
    each with the formatted height of that sample: every extreme is the
    last sample of its run.  A level of 4.0 is formatted ["4 feet"], 0.5
    ["0 and a half feet"] and 6.0 ["6 feet"]. *)
Theorem findHighTide_two_tides
    (Date_new : string -> JsDate) (getFormattedTime : JsDate -> string)
    (start top1 bottom top2 after : prediction)
    (up1 down up2 rest : list prediction) :
  rising start (up1 ++ [top1]) = true ->
  falling top1 (down ++ [bottom]) = true ->
  rising bottom (up2 ++ [top2]) = true ->
  isTideIncreasing top2 after = false ->
  let found := findHighTide Date_new getFormattedTime
    (payload (start :: up1 ++ top1 :: down ++ bottom :: up2 ++ top2 :: after :: rest)) in
  found = Ok
    {| firstHighTideTime := getFormattedTime (Date_new (t top1));
       firstHighTideHeight := getFormattedHeight (ToNumber (v top1));
       lowTideTime := getFormattedTime (Date_new (t bottom));
       lowTideHeight := getFormattedHeight (ToNumber (v bottom));
       secondHighTideTime := getFormattedTime (Date_new (t top2));
       secondHighTideHeight := getFormattedHeight (ToNumber (v top2)) |}
  /\ (v top1 = "4.0" -> getFormattedHeight (ToNumber (v top1)) = "4 feet")
  /\ (v bottom = "0.5" -> getFormattedHeight (ToNumber (v bottom)) = "0 and a half feet")
  /\ (v top2 = "6.0" -> getFormattedHeight (ToNumber (v top2)) = "6 feet").
Proof.
  intros H1 H2 H3 H4 found. subst found. split.
  - unfold findHighTide, payload. cbn [predictions].
    now rewrite (scan_two_tides _ _ _ _ _ _ _ _ _ H1 H2 H3 H4).
  - repeat split; intros ->; reflexivity.
Qed.

(** The theorem at the series [twoTides]: 4.0 at 06:00, 0.5 at 12:00,
    6.0 at 18:00. *)
Lemma findHighTide_two_tides_sample :
  findHighTide exampleDate exampleFormattedTime (payload twoTides)
  = Ok {| firstHighTideTime := "6:00"; firstHighTideHeight := "4 feet";
          lowTideTime := "12:00"; lowTideHeight := "0 and a half feet";
          secondHighTideTime := "18:00"; secondHighTideHeight := "6 feet" |}.
Proof.
  exact (proj1 (findHighTide_two_tides exampleDate exampleFormattedTime
    (sample "00:00" "1.2") (sample "06:00" "4.0") (sample "12:00" "0.5")
    (sample "18:00" "6.0") (sample "21:00" "5.4")
    [sample "03:00" "2.9"] [sample "09:00" "2.2"] [sample "15:00" "3.1"]
    [sample "23:54" "4.9"] eq_refl eq_refl eq_refl eq_refl)).
Defined.

(** C4, the code at the failing input.  On the series [twoTides], which
    rises to 4.0 at 06:00, falls to 0.5 at 12:00, rises to 6.0 at 18:00
    and falls afterwards, [findHighTide] returns the three extremes of
    the claim, but the heights of the two highs are formatted
    ["4 feet"] and ["6 feet"], not ["four feet"] and ["six feet"]. *)
Lemma findHighTide_heights_in_digits :
  (exists times : string * string * string,
     findHighTide exampleDate exampleFormattedTime (payload twoTides)
     = Ok {| firstHighTideTime := fst (fst times); firstHighTideHeight := "4 feet";
             lowTideTime := snd (fst times); lowTideHeight := "0 and a half feet";
             secondHighTideTime := snd times; secondHighTideHeight := "6 feet" |})
  /\ String.eqb "4 feet" "four feet" = false
  /\ String.eqb "6 feet" "six feet" = false.
Proof.
  split; [|split; reflexivity].
  exists ("6:00", "12:00", "18:00"). reflexivity.
Qed.

(** ** The directory and the city resolver *)

Lemma STATIONS_ids_nonzero (key : string) (id : Z) :
  assoc key STATIONS = Some id -> (id =? 0)%Z = false.
Proof.
  unfold STATIONS, assoc.
  repeat (destruct (String.eqb key _); [now intros [= <-]|]).
  discriminate.
Qed.

Lemma STATIONS_keys_truthy (key : string) (id : Z) :
  assoc (toLowerCase key) STATIONS = Some id -> truthy key = true.
Proof. destruct key; [discriminate|reflexivity]. Qed.

Lemma getCityStationFromIntent_known (cityName : string) (id : Z)
    (date : option slot) (assignDefault : bool) :
  assoc (toLowerCase cityName) STATIONS = Some id ->
  getCityStationFromIntent (cityIntent cityName date) assignDefault
  = {| error := false; city := Some cityName; station := StationId id |}.
Proof.
  intro H. unfold getCityStationFromIntent, cityIntent, slotValue. cbn [City value].
  rewrite (STATIONS_keys_truthy _ _ H).
  unfold STATIONS_get. rewrite H. cbn [truthyProperty].
  now rewrite (STATIONS_ids_nonzero _ _ H).
Qed.

Lemma requestUrl_text (station : property) (date : dateInfo) :
  requestUrl station date
  = "https://tidesandcurrents.noaa.gov/api/datagetter?" ++ requestDateParam date
      ++ "&station=" ++ propertyText station
      ++ "&product=predictions&datum=MLLW&application=Alexa.CapeCod.Tides&units=english&time_zone=lst_ldt&format=json".
Proof.
  unfold requestUrl, endpoint. cbv zeta. now rewrite !append_assoc.
Qed.

Lemma STATIONS_keys_lower (k : string) (id : Z) :
  In (k, id) STATIONS -> toLowerCase k = k /\ assoc k STATIONS = Some id.
Proof.
  unfold STATIONS. cbn [In].
  intros H.
  repeat match type of H with
         | _ \/ _ => destruct H as [H|H]
         | False => destruct H
         end;
    injection H as <- <-; split; reflexivity.
Qed.

(** C8.  For every pair of city slot values that differ only in letter
    case, [getCityStationFromIntent] returns the same station and the
    same error flag, whatever the rest of the request and whether or
    not a default is allowed; and the lookup is the one of the
    directory on the lower-cased name: when one of the two is a key of
    [STATIONS], or the lower-cased name has an entry, both values
    resolve without error to the identifier of that entry, each with
    the name as said; when the lower-cased name is no property of
    [STATIONS], both are rejected. *)
Theorem getCityStationFromIntent_case_insensitive
    (a b : string) (date date' : option slot) (assignDefault : bool) :
  differOnlyInCase a b ->
  let resolved := getCityStationFromIntent (cityIntent a date) assignDefault in
  let resolved' := getCityStationFromIntent (cityIntent b date') assignDefault in
  station resolved = station resolved' /\ error resolved = error resolved'
  /\ (forall id,
        In (b, id) STATIONS \/ assoc (toLowerCase a) STATIONS = Some id ->
        resolved = {| error := false; city := Some a; station := StationId id |}
        /\ resolved' = {| error := false; city := Some b; station := StationId id |})
  /\ (truthy a = true -> STATIONS_get (toLowerCase a) = Undefined ->
      resolved = {| error := true; city := Some a; station := Undefined |}
      /\ resolved' = {| error := true; city := Some b; station := Undefined |}).
Proof.
  intros H resolved resolved'. subst resolved resolved'.
  pose proof (differOnlyInCase_toLowerCase _ _ H) as Hlower.
  pose proof (differOnlyInCase_truthy _ _ H) as Htruthy.
  split; [|split; [|split]].
  - unfold getCityStationFromIntent, cityIntent, slotValue. cbn [City value].
    rewrite Htruthy. destruct (truthy b); [|now destruct assignDefault].
    rewrite Hlower.
    now destruct (truthyProperty (STATIONS_get (toLowerCase b))).
  - unfold getCityStationFromIntent, cityIntent, slotValue. cbn [City value].
    rewrite Htruthy. destruct (truthy b); [|now destruct assignDefault].
    rewrite Hlower.
    now destruct (truthyProperty (STATIONS_get (toLowerCase b))).
  - intros id Hid.
    assert (Ha : assoc (toLowerCase a) STATIONS = Some id).
    { destruct Hid as [Hin|Ha]; [|exact Ha].
      destruct (STATIONS_keys_lower _ _ Hin) as [Hb Hassoc].
      now rewrite Hlower, Hb. }
    split; apply getCityStationFromIntent_known; [exact Ha|now rewrite <- Hlower].
  - intros Ha Hnone.
    unfold getCityStationFromIntent, cityIntent, slotValue. cbn [City value].
    rewrite <- Htruthy, Ha, <- Hlower, Hnone. split; reflexivity.
Qed.

(** The theorem at ["Woods Hole"] and the key ["woods hole"]. *)
Lemma getCityStationFromIntent_case_insensitive_Woods_Hole :
  getCityStationFromIntent (cityIntent "Woods Hole" None) false
    = {| error := false; city := Some "Woods Hole"; station := StationId 8447939 |}
  /\ getCityStationFromIntent (cityIntent "woods hole" (valued "2017-09-23")) false
     = {| error := false; city := Some "woods hole"; station := StationId 8447939 |}.
Proof.
  assert (H : differOnlyInCase "Woods Hole" "woods hole")
    by (repeat (constructor; [reflexivity|]); constructor).
  destruct (getCityStationFromIntent_case_insensitive "Woods Hole" "woods hole"
              None (valued "2017-09-23") false H) as (_ & _ & Hkey & _).
  apply (Hkey 8447939). left.
  unfold STATIONS. cbn [In]. do 11 right. left. reflexivity.
Defined.

(** ** Turns *)

Section Turns.

Variable Date_new : string -> JsDate.
Variables getFormattedDate getFormattedTime : JsDate -> string.
Variable service : string -> delivery.

Local Abbreviation dialog :=
  (DialogTideIntent Date_new getFormattedDate getFormattedTime service).
Local Abbreviation oneshot :=
  (handleOneshotTideRequest Date_new getFormattedDate getFormattedTime service).
Local Abbreviation final :=
  (getFinalTideResponse Date_new getFormattedTime service).
Local Abbreviation apology :=
  "Sorry, the National Oceanic tide service is experiencing a problem. Please try again later".

Lemma getDateFromIntent_valued (city : option slot) (dateValue : string) :
  truthy dateValue = true ->
  getDateFromIntent Date_new getFormattedDate {| City := city; Date := valued dateValue |}
  = Some {| displayDate := getFormattedDate (Date_new dateValue);
            requestDateParam :=
              "begin_date=" ++ Number_toString (getFullYear (Date_new dateValue))
                ++ pad2 (plus1 (getMonth (Date_new dateValue)))
                ++ pad2 (getDate (Date_new dateValue)) ++ "&range=24" |}.
Proof.
  intro H. unfold getDateFromIntent, slotValue, valued. cbn [Date value].
  now rewrite H.
Qed.

(** The final request asks the service once, first of all. *)
Lemma getFinalTideResponse_one_get (cityStation : cityStation) (date : dateInfo)
    (session : session) :
  exists tells,
    calls (final cityStation date session)
    = HttpsGet (requestUrl (station cityStation) date) :: tells
    /\ existsb isHttpsGet tells = false.
Proof.
  unfold getFinalTideResponse, makeTideRequest.
  destruct (service _) as [message|statusCode body].
  - eexists; split; reflexivity.
  - destruct (onResponse _ _ _ _) as [cbs r]. cbn [calls].
    eexists; split; [reflexivity|].
    induction cbs as [|cb cbs IH]; [reflexivity|exact IH].
Qed.

(** C7.  In the dialog, a first turn that supplies a city of the
    directory, with nothing stored, stores the resolved city (name as
    said, station identifier of the directory) and asks ["For which
    date?"]; a second turn that supplies a date value and no city value
    then calls [https.get] exactly once, with the stored station
    identifier and the [begin_date] and [range] parameters of the
    resolved date. *)
Theorem dialog_city_then_date
    (cityName dateValue : string) (id : Z) (date1 city2 : option slot) :
  assoc (toLowerCase cityName) STATIONS = Some id ->
  slotValue city2 = None ->
  truthy dateValue = true ->
  let first := dialog (cityIntent cityName date1) newSession in
  let second := dialog {| City := city2; Date := valued dateValue |} (attributes first) in
  let date := Date_new dateValue in
  calls first
    = [ Ask "For which date?"
            ("For which date would you like tide information for " ++ cityName ++ "?") ]
  /\ attributes first
     = {| attributes_city :=
            Some {| error := false; city := Some cityName; station := StationId id |};
          attributes_date := None |}
  /\ exists tells,
       calls second
       = HttpsGet
           ("https://tidesandcurrents.noaa.gov/api/datagetter?"
              ++ ("begin_date=" ++ Number_toString (getFullYear date)
                    ++ pad2 (plus1 (getMonth date)) ++ pad2 (getDate date) ++ "&range=24")
              ++ "&station=" ++ string_of_Z id
              ++ "&product=predictions&datum=MLLW&application=Alexa.CapeCod.Tides&units=english&time_zone=lst_ldt&format=json")
         :: tells
       /\ existsb isHttpsGet tells = false.
Proof.
  intros Hcity Hcity2 Hdate first second date.
  assert (Hfirst : first = respond
            {| attributes_city :=
                 Some {| error := false; city := Some cityName; station := StationId id |};
               attributes_date := None |}
            (Ask "For which date?"
               ("For which date would you like tide information for " ++ cityName ++ "?"))).
  { subst first. unfold DialogTideIntent, handleCityDialogRequest.
    rewrite (getCityStationFromIntent_known _ _ _ _ Hcity).
    unfold cityIntent, slotValue. cbn [City value].
    now rewrite (STATIONS_keys_truthy _ _ Hcity). }
  split; [now rewrite Hfirst|]. split; [now rewrite Hfirst|].
  subst second. rewrite Hfirst. cbn [respond attributes].
  unfold DialogTideIntent. cbn [City Date]. rewrite Hcity2. cbn [isSome].
  replace (slotValue (valued dateValue)) with (Some dateValue)
    by (unfold slotValue, valued; now rewrite Hdate).
  cbn [isSome]. unfold handleDateDialogRequest.
  rewrite (getDateFromIntent_valued _ _ Hdate). cbn [attributes_city].
  match goal with |- context [getFinalTideResponse _ _ _ ?c ?d ?s] =>
    destruct (getFinalTideResponse_one_get c d s) as (tells & Hcalls & Hnone) end.
  exists tells. split; [|exact Hnone].
  rewrite Hcalls, requestUrl_text. reflexivity.
Qed.

(** C10, as amended.  A dialog request with a value in the City slot is
    handled from the city alone: the answer is the same whatever the
    Date slot holds.  When the city resolves and no date is stored, the
    city is stored and the user is asked ["For which date?"]; when the
    city does not resolve, the user is asked for a town again and
    nothing is stored. *)
Theorem dialog_city_slot_first
    (cityName : string) (date date' : option slot) (session : session) :
  truthy cityName = true ->
  let cityStation := getCityStationFromIntent (cityIntent cityName date) false in
  let answer := dialog (cityIntent cityName date) session in
  answer = dialog (cityIntent cityName date') session
  /\ (error cityStation = false -> attributes_date session = None ->
      calls answer
        = [ Ask "For which date?"
                ("For which date would you like tide information for " ++ cityName ++ "?") ]
      /\ attributes answer
         = {| attributes_city := Some cityStation; attributes_date := None |})
  /\ (error cityStation = true ->
      calls answer
        = [ Ask ("I'm sorry, I don't have any data for " ++ cityName ++ ". " ++ cityReprompt)
                cityReprompt ]
      /\ attributes answer = session).
Proof.
  intros Hcity cityStation answer. subst cityStation answer.
  unfold DialogTideIntent, handleCityDialogRequest, getCityStationFromIntent,
    cityIntent, slotValue.
  cbn [City value]. rewrite Hcity. cbn [isSome].
  destruct (truthyProperty (STATIONS_get (toLowerCase cityName))); cbn [error city].
  - split; [reflexivity|]. split; [|discriminate].
    intros _ Hnone. rewrite Hnone. split; reflexivity.
  - split; [reflexivity|]. split; [discriminate|].
    intros _. unfold citySpeech. cbn [city]. rewrite Hcity. split; reflexivity.
Qed.

(** C9.  When the response has a status code other than 200 and a body
    that is JSON with no [error] and a series [findHighTide] accepts,
    [makeTideRequest] calls back twice, first with the error ["Non 200
    Response"], then with the tides, and the turn sends two responses:
    the apology, then the tides. *)
Theorem makeTideRequest_second_completion
    (cityStation : cityStation) (date : dateInfo) (session : session)
    (statusCode : Z) (body : noaaResponse) (highTide : highTideResponse) :
  service (requestUrl (station cityStation) date) = Response statusCode (Some body) ->
  (statusCode =? 200)%Z = false ->
  noaa_error body = None ->
  findHighTide Date_new getFormattedTime body = Ok highTide ->
  makeTideRequest Date_new getFormattedTime service (station cityStation) date
    = (requestUrl (station cityStation) date,
       [WithError "Non 200 Response"; WithTides highTide], Ok tt)
  /\ calls (final cityStation date session)
     = [ HttpsGet (requestUrl (station cityStation) date);
         TellWithCard apology "CapeCodTides" apology;
         tideResponseCallback cityStation date (WithTides highTide) ].
Proof.
  intros Hservice Hstatus Herror Hfound.
  unfold getFinalTideResponse, makeTideRequest. rewrite Hservice.
  unfold onResponse, onEnd. rewrite Hstatus, Herror, Hfound. split; reflexivity.
Qed.

(** C1, the code at the failing input.  A date value the host cannot
    read makes [getDateFromIntent] return an object, with the text of
    [NaN] in its query parameter, and not a falsy value; the dialog goes
    on to ask for the town. *)
Theorem getDateFromIntent_invalid_date_is_truthy
    (city : option slot) (dateValue : string) (session : session) :
  truthy dateValue = true ->
  Date_new dateValue = InvalidDate ->
  let request := {| City := city; Date := valued dateValue |} in
  getDateFromIntent Date_new getFormattedDate request
    = Some {| displayDate := getFormattedDate InvalidDate;
              requestDateParam := "begin_date=NaNNaNNaN&range=24" |}
  /\ (attributes_city session = None ->
      calls (handleDateDialogRequest Date_new getFormattedDate getFormattedTime service
               request session)
      = [ Ask ("For which town would you like tide information for "
                 ++ getFormattedDate InvalidDate ++ "?")
              "For which town?" ]).
Proof.
  intros Hvalue Hinvalid request. subst request.
  assert (H : getDateFromIntent Date_new getFormattedDate
                {| City := city; Date := valued dateValue |}
              = Some {| displayDate := getFormattedDate InvalidDate;
                        requestDateParam := "begin_date=NaNNaNNaN&range=24" |}).
  { rewrite (getDateFromIntent_valued _ _ Hvalue), Hinvalid. reflexivity. }
  split; [exact H|].
  intro Hnone. unfold handleDateDialogRequest. rewrite H, Hnone. reflexivity.
Qed.

(** C2, the code at the failing input.  When the service answers with
    the series [risingOnly], the final request ends in a [TypeError]
    after the call of [https.get]: no response method is called. *)
Theorem getFinalTideResponse_rising_series_throws
    (cityStation : cityStation) (date : dateInfo) (session : session) :
  service (requestUrl (station cityStation) date)
    = Response 200 (Some (payload risingOnly)) ->
  final cityStation date session
  = {| attributes := session;
       calls := [HttpsGet (requestUrl (station cityStation) date)];
       outcome := Throw TypeError |}.
Proof.
  intro Hservice.
  unfold getFinalTideResponse, makeTideRequest. rewrite Hservice. reflexivity.
Qed.

(** C3, the code at the failing input.  When the service answers 200
    with an [error] payload, the final request ends in a
    [ReferenceError] after the call of [https.get]: the callback is not
    called and nothing is said. *)
Theorem getFinalTideResponse_error_payload_throws
    (cityStation : cityStation) (date : dateInfo) (session : session)
    (message : string) :
  service (requestUrl (station cityStation) date)
    = Response 200 (Some (errorPayload message)) ->
  final cityStation date session
  = {| attributes := session;
       calls := [HttpsGet (requestUrl (station cityStation) date)];
       outcome := Throw ReferenceError |}.
Proof.
  intro Hservice.
  unfold getFinalTideResponse, makeTideRequest. rewrite Hservice. reflexivity.
Qed.

(** C6, the code at the failing input.  The city ["constructor"] is no
    key of the directory, yet [STATIONS["constructor"]] is the inherited
    constructor of the object: the city resolves without error, the
    date is resolved, and [https.get] is called with the text of that
    function as the station. *)
Theorem oneshot_constructor_is_accepted (date : option slot) (session : session) :
  let request := cityIntent "constructor" date in
  assoc "constructor" STATIONS = None
  /\ getCityStationFromIntent request true
     = {| error := false; city := Some "constructor"; station := Inherited "constructor" |}
  /\ exists resolved tells,
       getDateFromIntent Date_new getFormattedDate request = Some resolved
       /\ calls (oneshot request session)
          = HttpsGet
              ("https://tidesandcurrents.noaa.gov/api/datagetter?"
                 ++ requestDateParam resolved
                 ++ "&station=function Object() { [native code] }"
                 ++ "&product=predictions&datum=MLLW&application=Alexa.CapeCod.Tides&units=english&time_zone=lst_ldt&format=json")
            :: tells.
Proof.
  intro request. subst request. split; [reflexivity|]. split; [reflexivity|].
  unfold handleOneshotTideRequest.
  change (getCityStationFromIntent (cityIntent "constructor" date) true)
    with {| error := false; city := Some "constructor"; station := Inherited "constructor" |}.
  cbn [error].
  destruct (getDateFromIntent Date_new getFormattedDate (cityIntent "constructor" date))
    as [resolved|] eqn:E.
  - match goal with |- context [getFinalTideResponse _ _ _ ?c ?d ?s] =>
      destruct (getFinalTideResponse_one_get c d s) as (tells & Hcalls & _) end.
    exists resolved, tells. split; [reflexivity|].
    rewrite Hcalls, requestUrl_text. reflexivity.
  - unfold getDateFromIntent in E. destruct (slotValue _); discriminate.
Qed.

(** X1.  A one-shot request whose city value names no property of
    [STATIONS] is answered with the prompt that lists the towns; the session is
    left as it was, no request is sent, and neither the Date slot nor
    the host's [Date] has a part in the answer. *)
Theorem oneshot_unknown_city (cityName : string) (date : option slot) (session : session) :
  truthy cityName = true ->
  STATIONS_get (toLowerCase cityName) = Undefined ->
  oneshot (cityIntent cityName date) session
  = {| attributes := session;
       calls := [ Ask ("I'm sorry, I don't have any data for " ++ cityName ++ ". "
                         ++ cityReprompt) cityReprompt ];
       outcome := Ok tt |}.
Proof.
  intros Hcity Hget.
  unfold handleOneshotTideRequest, getCityStationFromIntent, cityIntent, slotValue.
  cbn [City value]. rewrite Hcity, Hget. cbn [truthyProperty error].
  unfold citySpeech. cbn [city]. now rewrite Hcity.
Qed.

(** X2.  The date resolver never hands its callers a falsy value: their
    [!date] branches cannot be taken. *)
Theorem getDateFromIntent_total (request : intent) :
  exists date, getDateFromIntent Date_new getFormattedDate request = Some date.
Proof.
  unfold getDateFromIntent. destruct (slotValue (Date request)); eexists; reflexivity.
Qed.

(** Without a date value the date resolver answers today. *)
Theorem getDateFromIntent_default (request : intent) :
  slotValue (Date request) = None ->
  getDateFromIntent Date_new getFormattedDate request
  = Some {| displayDate := "Today"; requestDateParam := "date=today" |}.
Proof. intro H. unfold getDateFromIntent. now rewrite H. Qed.

(** X5.  A transport error is reported once, with the apology. *)
Theorem getFinalTideResponse_transport_error
    (cityStation : cityStation) (date : dateInfo) (session : session)
    (message : string) :
  service (requestUrl (station cityStation) date) = RequestError message ->
  final cityStation date session
  = {| attributes := session;
       calls := [ HttpsGet (requestUrl (station cityStation) date);
                  TellWithCard apology "CapeCodTides" apology ];
       outcome := Ok tt |}.
Proof.
  intro Hservice.
  unfold getFinalTideResponse, makeTideRequest. rewrite Hservice. reflexivity.
Qed.

End Turns.

(** Without a city value and with the default allowed, the city
    resolver answers Plymouth, a town of the directory. *)
Theorem getCityStationFromIntent_default (request : intent) :
  slotValue (City request) = None ->
  getCityStationFromIntent request true
    = {| error := false; city := Some "Plymouth"; station := StationId 8446493 |}
  /\ assoc (toLowerCase "Plymouth") STATIONS = Some 8446493.
Proof.
  intro H. unfold getCityStationFromIntent. rewrite H. split; reflexivity.
Qed.

(** ** The theorems at concrete requests *)

(** [dialog_city_then_date] at Plymouth and 2017-09-23, a Saturday. *)
Lemma dialog_city_then_date_Plymouth :
  let first := DialogTideIntent exampleDate exampleFormattedDate exampleFormattedTime
                 tidesService (cityIntent "Plymouth" None) newSession in
  let second := DialogTideIntent exampleDate exampleFormattedDate exampleFormattedTime
                  tidesService {| City := None; Date := valued "2017-09-23" |}
                  (attributes first) in
  calls first
    = [ Ask "For which date?" "For which date would you like tide information for Plymouth?" ]
  /\ attributes first
     = {| attributes_city :=
            Some {| error := false; city := Some "Plymouth"; station := StationId 8446493 |};
          attributes_date := None |}
  /\ exists tells,
       calls second
       = HttpsGet "https://tidesandcurrents.noaa.gov/api/datagetter?begin_date=20170923&range=24&station=8446493&product=predictions&datum=MLLW&application=Alexa.CapeCod.Tides&units=english&time_zone=lst_ldt&format=json"
         :: tells
       /\ existsb isHttpsGet tells = false.
Proof.
  exact (dialog_city_then_date exampleDate exampleFormattedDate exampleFormattedTime
           tidesService "Plymouth" "2017-09-23" 8446493 None None
           eq_refl eq_refl eq_refl).
Defined.

(** [dialog_city_slot_first] at Plymouth, with and without a date in the
    same request. *)
Lemma dialog_city_slot_first_Plymouth :
  let answer := DialogTideIntent exampleDate exampleFormattedDate exampleFormattedTime
                  tidesService (cityIntent "Plymouth" (valued "2017-09-23")) newSession in
  answer = DialogTideIntent exampleDate exampleFormattedDate exampleFormattedTime
             tidesService (cityIntent "Plymouth" None) newSession
  /\ calls answer
     = [ Ask "For which date?" "For which date would you like tide information for Plymouth?" ]
  /\ attributes answer
     = {| attributes_city :=
            Some {| error := false; city := Some "Plymouth"; station := StationId 8446493 |};
          attributes_date := None |}.
Proof.
  destruct (dialog_city_slot_first exampleDate exampleFormattedDate exampleFormattedTime
              tidesService "Plymouth" (valued "2017-09-23") None newSession eq_refl)
    as (Hsame & Hasked & _).
  split; [exact Hsame|]. exact (Hasked eq_refl eq_refl).
Defined.

(** C10 as stated fails: with values in both slots and no date stored,
    a city that does not resolve is answered with the prompt for a town,
    not with ["For which date?"]. *)
Lemma dialog_unknown_city_is_not_asked_for_a_date :
  calls (DialogTideIntent exampleDate exampleFormattedDate exampleFormattedTime
           tidesService (cityIntent "Nowhereville" (valued "2017-09-23")) newSession)
  = [ Ask ("I'm sorry, I don't have any data for Nowhereville. " ++ cityReprompt)
          cityReprompt ]
  /\ String.eqb ("I'm sorry, I don't have any data for Nowhereville. " ++ cityReprompt)
                "For which date?" = false.
Proof. split; reflexivity. Qed.

(** [makeTideRequest_second_completion] at a 500 response that carries
    the series [twoTides]. *)
Lemma makeTideRequest_second_completion_500 :
  let plymouth := {| error := false; city := Some "Plymouth"; station := StationId 8446493 |} in
  let today := {| displayDate := "Today"; requestDateParam := "date=today" |} in
  let service := always (Response 500 (Some (payload twoTides))) in
  exists highTide,
    findHighTide exampleDate exampleFormattedTime (payload twoTides) = Ok highTide
    /\ makeTideRequest exampleDate exampleFormattedTime service (station plymouth) today
       = (requestUrl (station plymouth) today,
          [WithError "Non 200 Response"; WithTides highTide], Ok tt)
    /\ calls (getFinalTideResponse exampleDate exampleFormattedTime service
                plymouth today newSession)
       = [ HttpsGet (requestUrl (station plymouth) today);
           TellWithCard
             "Sorry, the National Oceanic tide service is experiencing a problem. Please try again later"
             "CapeCodTides"
             "Sorry, the National Oceanic tide service is experiencing a problem. Please try again later";
           TellWithCard
             "Today in Plymouth, the first high tide will be around 6:00, followed by a low tide at around 12:00. The second high tide will be around 18:00"
             "CapeCodTides"
             "Today in Plymouth, the first high tide will be around 6:00, followed by a low tide at around 12:00. The second high tide will be around 18:00" ].
Proof.
  intros plymouth today service.
  eexists. split; [reflexivity|].
  exact (makeTideRequest_second_completion exampleDate exampleFormattedTime service
           plymouth today newSession 500 (payload twoTides) _
           eq_refl eq_refl eq_refl eq_refl).
Defined.

(** [getDateFromIntent_invalid_date_is_truthy] at ["not a date"]. *)
Lemma getDateFromIntent_not_a_date :
  exampleDate "not a date" = InvalidDate
  /\ getDateFromIntent exampleDate exampleFormattedDate
       {| City := None; Date := valued "not a date" |}
     = Some {| displayDate := "NaN/NaN/NaN";
               requestDateParam := "begin_date=NaNNaNNaN&range=24" |}
  /\ calls (handleDateDialogRequest exampleDate exampleFormattedDate exampleFormattedTime
              tidesService {| City := None; Date := valued "not a date" |} newSession)
     = [ Ask "For which town would you like tide information for NaN/NaN/NaN?"
             "For which town?" ].
Proof.
  split; [reflexivity|].
  destruct (getDateFromIntent_invalid_date_is_truthy exampleDate exampleFormattedDate
              exampleFormattedTime tidesService None "not a date" newSession
              eq_refl eq_refl) as (Hdate & Hcalls).
  split; [exact Hdate|exact (Hcalls eq_refl)].
Defined.

(** [getFinalTideResponse_rising_series_throws] at Plymouth, today. *)
Lemma getFinalTideResponse_rising_series_throws_Plymouth :
  let plymouth := {| error := false; city := Some "Plymouth"; station := StationId 8446493 |} in
  let today := {| displayDate := "Today"; requestDateParam := "date=today" |} in
  getFinalTideResponse exampleDate exampleFormattedTime
    (always (Response 200 (Some (payload risingOnly)))) plymouth today newSession
  = {| attributes := newSession;
       calls := [HttpsGet (requestUrl (station plymouth) today)];
       outcome := Throw TypeError |}.
Proof.
  intros plymouth today.
  exact (getFinalTideResponse_rising_series_throws exampleDate exampleFormattedTime
           (always (Response 200 (Some (payload risingOnly))))
           plymouth today newSession eq_refl).
Defined.

(** [getFinalTideResponse_error_payload_throws] at Plymouth, today. *)
Lemma getFinalTideResponse_error_payload_throws_Plymouth :
  let plymouth := {| error := false; city := Some "Plymouth"; station := StationId 8446493 |} in
  let today := {| displayDate := "Today"; requestDateParam := "date=today" |} in
  getFinalTideResponse exampleDate exampleFormattedTime
    (always (Response 200 (Some (errorPayload "No Predictions data was found."))))
    plymouth today newSession
  = {| attributes := newSession;
       calls := [HttpsGet (requestUrl (station plymouth) today)];
       outcome := Throw ReferenceError |}.
Proof.
  intros plymouth today.
  exact (getFinalTideResponse_error_payload_throws exampleDate exampleFormattedTime
           (always (Response 200 (Some (errorPayload "No Predictions data was found."))))
           plymouth today newSession "No Predictions data was found." eq_refl).
Defined.

(** [oneshot_unknown_city] at Nowhereville, on a Saturday. *)
Lemma oneshot_unknown_city_Nowhereville :
  handleOneshotTideRequest exampleDate exampleFormattedDate exampleFormattedTime
    tidesService (cityIntent "Nowhereville" (valued "2017-09-23")) newSession
  = {| attributes := newSession;
       calls := [ Ask ("I'm sorry, I don't have any data for Nowhereville. "
                         ++ cityReprompt) cityReprompt ];
       outcome := Ok tt |}.
Proof.
  exact (oneshot_unknown_city exampleDate exampleFormattedDate exampleFormattedTime
           tidesService "Nowhereville" (valued "2017-09-23") newSession
           eq_refl eq_refl).
Defined.

(** [getDateFromIntent_default] at a request with no slot at all. *)
Lemma getDateFromIntent_default_no_slot :
  getDateFromIntent exampleDate exampleFormattedDate {| City := None; Date := None |}
  = Some {| displayDate := "Today"; requestDateParam := "date=today" |}.
Proof.
  exact (getDateFromIntent_default exampleDate exampleFormattedDate
           {| City := None; Date := None |} eq_refl).
Defined.

(** [getFinalTideResponse_transport_error] at Plymouth, today. *)
Lemma getFinalTideResponse_transport_error_Plymouth :
  let plymouth := {| error := false; city := Some "Plymouth"; station := StationId 8446493 |} in
  let today := {| displayDate := "Today"; requestDateParam := "date=today" |} in
  getFinalTideResponse exampleDate exampleFormattedTime
    (always (RequestError "getaddrinfo ENOTFOUND")) plymouth today newSession
  = {| attributes := newSession;
       calls := [ HttpsGet (requestUrl (station plymouth) today);
                  TellWithCard
                    "Sorry, the National Oceanic tide service is experiencing a problem. Please try again later"
                    "CapeCodTides"
                    "Sorry, the National Oceanic tide service is experiencing a problem. Please try again later" ];
       outcome := Ok tt |}.
Proof.
  intros plymouth today.
  exact (getFinalTideResponse_transport_error exampleDate exampleFormattedTime
           (always (RequestError "getaddrinfo ENOTFOUND"))
           plymouth today newSession "getaddrinfo ENOTFOUND" eq_refl).
Defined.

(** [getCityStationFromIntent_default] at a City slot with an empty
    value. *)
Lemma getCityStationFromIntent_default_empty_value :
  getCityStationFromIntent {| City := valued ""; Date := None |} true
    = {| error := false; city := Some "Plymouth"; station := StationId 8446493 |}
  /\ assoc (toLowerCase "Plymouth") STATIONS = Some 8446493.
Proof.
  exact (getCityStationFromIntent_default {| City := valued ""; Date := None |} eq_refl).
Defined.

(** * Further properties *)

(** ** The phases of the tide extraction *)

Lemma last_cons {A : Type} (l : list A) :
  forall x d : A, last (x :: l) d = last l x.
Proof.
  induction l as [|y l IH]; intros x d; [reflexivity|].
  change (last (x :: y :: l) d) with (last (y :: l) d).
  now rewrite (IH y d), (IH y x).
Qed.

Ltac phases :=
  unfold phaseStart, phaseFirstHigh, phaseLow, phaseSecondHigh,
    setLast, setLow, setDone, setFirstHigh, setSecondHigh in *;
  cbn [lastPrediction firstHighTide secondHighTide lowTide firstTideDone
       negb andb isSome] in *.

Lemma scan_phaseSecondHigh (l : list prediction) :
  forall fh low p,
    exists up tail,
      l = (up ++ tail)%list
      /\ rising p up = true
      /\ falling (last up p) (firstn 1 tail) = true
      /\ scanPredictions l (phaseSecondHigh fh low p)
         = phaseSecondHigh fh low (last up p).
Proof.
  induction l as [|q l IH]; intros fh low p.
  - exists [], []. repeat split.
  - cbn. destruct (isTideIncreasing p q) eqn:E.
    + destruct (IH fh low q) as (up & tail & -> & Hup & Htail & Hscan).
      exists (q :: up), tail. cbn [rising]. rewrite E, Hup.
      rewrite last_cons. repeat split; assumption.
    + exists [], (q :: l). cbn. rewrite E. repeat split.
Qed.

Lemma scan_phaseLow (l : list prediction) :
  forall fh p,
    (falling p l = true
     /\ scanPredictions l (phaseLow fh p) = phaseLow fh (last l p))
    \/ exists down r up2 tail,
         l = (down ++ (r :: up2) ++ tail)%list
         /\ falling p down = true
         /\ rising (last down p) (r :: up2) = true
         /\ falling (last up2 r) (firstn 1 tail) = true
         /\ scanPredictions l (phaseLow fh p)
            = phaseSecondHigh fh (last down p) (last up2 r).
Proof.
  induction l as [|q l IH]; intros fh p.
  - left. split; reflexivity.
  - rewrite last_cons. cbn [scanPredictions phaseLow lastPrediction]. destruct (isTideIncreasing p q) eqn:E.
    + right. cbn.
      destruct (scan_phaseSecondHigh l fh p q) as (up & tail & -> & Hup & Htail & Hscan).
      exists [], q, up, tail. cbn [app last falling rising]. rewrite E, Hup.
      repeat split; try assumption.
    + cbn. destruct (IH fh q) as [[Hfall Hscan]|(down & r & up2 & tail & -> & Hd & Hr & Ht & Hscan)].
      * left. cbn [falling]. rewrite E, Hfall. split; [reflexivity|exact Hscan].
      * right. exists (q :: down), r, up2, tail. cbn [app falling]. rewrite E, Hd, last_cons.
        repeat split; assumption.
Qed.

Lemma scan_phaseFirstHigh (l : list prediction) :
  forall p,
    secondHighTide (scanPredictions l (phaseFirstHigh p)) = None
    \/ exists up1 d down r up2 tail,
         l = (up1 ++ (d :: down) ++ (r :: up2) ++ tail)%list
         /\ rising p up1 = true
         /\ falling (last up1 p) (d :: down) = true
         /\ rising (last down d) (r :: up2) = true
         /\ falling (last up2 r) (firstn 1 tail) = true
         /\ scanPredictions l (phaseFirstHigh p)
            = phaseSecondHigh (last up1 p) (last down d) (last up2 r).
Proof.
  induction l as [|q l IH]; intros p.
  - left. reflexivity.
  - cbn [scanPredictions phaseFirstHigh lastPrediction]. destruct (isTideIncreasing p q) eqn:E.
    + cbn. destruct (IH q) as [Hnone|(up1 & d & down & r & up2 & tail & -> & H1 & H2 & H3 & H4 & Hscan)].
      * left. phases. exact Hnone.
      * right. exists (q :: up1), d, down, r, up2, tail. cbn [app rising].
        rewrite E, H1, last_cons. phases. repeat split; assumption.
    + cbn. destruct (scan_phaseLow l p q) as [[Hfall Hscan]|(down & r & up2 & tail & -> & Hd & Hr & Ht & Hscan)].
      * left. phases. now rewrite Hscan.
      * right. exists [], q, down, r, up2, tail. cbn [app rising last falling].
        rewrite E, Hd. phases. repeat split; assumption.
Qed.

Lemma scan_phaseStart (l : list prediction) :
  forall p,
    secondHighTide (scanPredictions l (phaseStart p)) = None
    \/ exists lead u up1 d down r up2 tail,
         l = (lead ++ (u :: up1) ++ (d :: down) ++ (r :: up2) ++ tail)%list
         /\ falling p lead = true
         /\ rising (last lead p) (u :: up1) = true
         /\ falling (last up1 u) (d :: down) = true
         /\ rising (last down d) (r :: up2) = true
         /\ falling (last up2 r) (firstn 1 tail) = true
         /\ scanPredictions l (phaseStart p)
            = phaseSecondHigh (last up1 u) (last down d) (last up2 r).
Proof.
  induction l as [|q l IH]; intros p.
  - left. reflexivity.
  - cbn [scanPredictions phaseStart lastPrediction]. destruct (isTideIncreasing p q) eqn:E.
    + cbn. destruct (scan_phaseFirstHigh l q)
        as [Hnone|(up1 & d & down & r & up2 & tail & -> & H1 & H2 & H3 & H4 & Hscan)].
      * left. phases. exact Hnone.
      * right. exists [], q, up1, d, down, r, up2, tail. cbn [app last rising].
        rewrite E, H1. phases. repeat split; assumption.
    + cbn. destruct (IH q)
        as [Hnone|(lead & u & up1 & d & down & r & up2 & tail & -> & H0 & H1 & H2 & H3 & H4 & Hscan)].
      * left. phases. exact Hnone.
      * right. exists (q :: lead), u, up1, d, down, r, up2, tail. cbn [app falling].
        rewrite E, H0, last_cons. phases. repeat split; assumption.
Qed.

Lemma scan_lead (lead : list prediction) :
  forall p rest,
    falling p lead = true ->
    scanPredictions (lead ++ rest) (phaseStart p)
    = scanPredictions rest (phaseStart (last lead p)).
Proof.
  induction lead as [|q lead IH]; intros p rest H; [reflexivity|].
  cbn [falling] in H. apply andb_true_iff in H as [Hq H]. apply negb_true_iff in Hq.
  rewrite last_cons. cbn [app scanPredictions phaseStart lastPrediction]. rewrite Hq.
  phases. now apply IH.
Qed.

Lemma scan_rise1 (up : list prediction) :
  forall p rest,
    rising p up = true ->
    scanPredictions (up ++ rest) (phaseFirstHigh p)
    = scanPredictions rest (phaseFirstHigh (last up p)).
Proof.
  induction up as [|q up IH]; intros p rest H; [reflexivity|].
  cbn [rising] in H. apply andb_true_iff in H as [Hq H].
  rewrite last_cons. cbn [app scanPredictions phaseFirstHigh lastPrediction]. rewrite Hq.
  phases. now apply IH.
Qed.

Lemma scan_fall1 (down : list prediction) :
  forall fh p rest,
    falling p down = true ->
    scanPredictions (down ++ rest) (phaseLow fh p)
    = scanPredictions rest (phaseLow fh (last down p)).
Proof.
  induction down as [|q down IH]; intros fh p rest H; [reflexivity|].
  cbn [falling] in H. apply andb_true_iff in H as [Hq H]. apply negb_true_iff in Hq.
  rewrite last_cons. cbn [app scanPredictions phaseLow lastPrediction]. rewrite Hq.
  phases. now apply IH.
Qed.

Lemma scan_rise2 (up : list prediction) :
  forall fh low p rest,
    rising p up = true ->
    scanPredictions (up ++ rest) (phaseSecondHigh fh low p)
    = scanPredictions rest (phaseSecondHigh fh low (last up p)).
Proof.
  induction up as [|q up IH]; intros fh low p rest H; [reflexivity|].
  cbn [rising] in H. apply andb_true_iff in H as [Hq H].
  rewrite last_cons. cbn [app scanPredictions phaseSecondHigh lastPrediction]. rewrite Hq.
  phases. now apply IH.
Qed.

Lemma scan_tail (tail : list prediction) (fh low p : prediction) :
  falling p (firstn 1 tail) = true ->
  scanPredictions tail (phaseSecondHigh fh low p) = phaseSecondHigh fh low p.
Proof.
  destruct tail as [|q tail]; [reflexivity|].
  cbn [firstn falling]. rewrite andb_true_r, negb_true_iff. intro Hq.
  cbn [scanPredictions phaseSecondHigh lastPrediction]. rewrite Hq. reflexivity.
Qed.

(** A series with two tides leaves the loop with its three extremes. *)
Lemma scanPredictions_twoTides (l : list prediction) (top1 bottom top2 : prediction) :
  twoTideShape l top1 bottom top2 ->
  scanPredictions l scan0 = phaseSecondHigh top1 bottom top2.
Proof.
  intros (start & lead & u & up1 & d & down & r & up2 & tail
          & -> & H0 & H1 & -> & H2 & -> & H3 & -> & H4).
  change (scanPredictions (start :: ?l) scan0) with (scanPredictions l (phaseStart start)).
  rewrite (scan_lead lead _ _ H0).
  cbn [rising] in H1. apply andb_true_iff in H1 as [Hu H1].
  cbn [falling] in H2. apply andb_true_iff in H2 as [Hd H2]. apply negb_true_iff in Hd.
  cbn [rising] in H3. apply andb_true_iff in H3 as [Hr H3].
  cbn [app scanPredictions phaseStart lastPrediction]. rewrite Hu. phases.
  fold (phaseFirstHigh u). rewrite (scan_rise1 up1 _ _ H1).
  cbn [app scanPredictions phaseFirstHigh lastPrediction]. rewrite Hd. phases.
  fold (phaseLow (last up1 u) d). rewrite (scan_fall1 down _ _ _ H2).
  cbn [app scanPredictions phaseLow lastPrediction]. rewrite Hr. phases.
  fold (phaseSecondHigh (last up1 u) (last down d) r). rewrite (scan_rise2 up2 _ _ _ _ H3).
  now apply scan_tail.
Qed.

(** The loop ends without a second high, or the series has two tides. *)
Lemma scanPredictions_outcome (l : list prediction) :
  secondHighTide (scanPredictions l scan0) = None
  \/ exists top1 bottom top2,
       twoTideShape l top1 bottom top2
       /\ scanPredictions l scan0 = phaseSecondHigh top1 bottom top2.
Proof.
  destruct l as [|start l]; [left; reflexivity|].
  change (scanPredictions (start :: l) scan0) with (scanPredictions l (phaseStart start)).
  destruct (scan_phaseStart l start)
    as [Hnone|(lead & u & up1 & d & down & r & up2 & tail
               & -> & H0 & H1 & H2 & H3 & H4 & Hscan)]; [now left|].
  right. exists (last up1 u), (last down d), (last up2 r). split; [|exact Hscan].
  exists start, lead, u, up1, d, down, r, up2, tail. repeat split; assumption.
Qed.

Lemma twoTideShape_length (l : list prediction) (top1 bottom top2 : prediction) :
  twoTideShape l top1 bottom top2 -> (4 <= length l)%nat.
Proof.
  intros (start & lead & u & up1 & d & down & r & up2 & tail & -> & _).
  repeat (rewrite length_app || cbn [length]). lia.
Qed.

Section Tides.

Variable Date_new : string -> JsDate.
Variable getFormattedTime : JsDate -> string.

(** X7.  [findHighTide] returns an answer exactly on the series with two
    tides (a first sample, a run that does not rise, a rising run, a run
    that does not rise, a rising run, then the end or a sample that does
    not rise), and the answer holds the last sample of each of the
    three runs; on every other series it throws a [TypeError]. *)
Theorem findHighTide_answers_iff_two_tides (l : list prediction) :
  (forall highTide,
     findHighTide Date_new getFormattedTime (payload l) = Ok highTide
     <-> exists top1 bottom top2,
           twoTideShape l top1 bottom top2
           /\ highTide = tidesOf Date_new getFormattedTime top1 bottom top2)
  /\ (findHighTide Date_new getFormattedTime (payload l) = Throw TypeError
      <-> ~ exists top1 bottom top2, twoTideShape l top1 bottom top2).
Proof.
  unfold findHighTide, payload. cbn [predictions]. cbv zeta.
  destruct (scanPredictions_outcome l) as [Hnone|(t1 & b & t2 & Hshape & Hscan)].
  - assert (Hno : ~ exists top1 bottom top2, twoTideShape l top1 bottom top2).
    { intros (t1 & b & t2 & Hshape).
      rewrite (scanPredictions_twoTides _ _ _ _ Hshape) in Hnone. discriminate. }
    rewrite Hnone. split.
    + intro highTide. split.
      * destruct (firstHighTide (scanPredictions l scan0)),
          (lowTide (scanPredictions l scan0)); discriminate.
      * intros (t1 & b & t2 & Hshape & _). destruct Hno. now exists t1, b, t2.
    + split; [intros _; exact Hno|intros _].
      now destruct (firstHighTide (scanPredictions l scan0)),
        (lowTide (scanPredictions l scan0)).
  - rewrite Hscan. phases. split.
    + intro highTide. split.
      * intros [= <-]. now exists t1, b, t2.
      * intros (t1' & b' & t2' & Hshape' & ->).
        pose proof (scanPredictions_twoTides _ _ _ _ Hshape') as Hscan'.
        rewrite Hscan in Hscan'. unfold phaseSecondHigh in Hscan'.
        inversion Hscan'; subst. reflexivity.
    + split; [discriminate|]. intro Hno. destruct Hno. now exists t1, b, t2.
Qed.

(** X8.  On a series of fewer than four samples, the empty one
    included, [findHighTide] throws a [TypeError]. *)
Theorem findHighTide_short_series_throws (l : list prediction) :
  (length l < 4)%nat ->
  findHighTide Date_new getFormattedTime (payload l) = Throw TypeError.
Proof.
  intro Hlen. unfold findHighTide, payload. cbn [predictions]. cbv zeta.
  destruct (scanPredictions_outcome l) as [Hnone|(t1 & b & t2 & Hshape & _)].
  - rewrite Hnone. now destruct (firstHighTide (scanPredictions l scan0)), (lowTide (scanPredictions l scan0)).
  - apply twoTideShape_length in Hshape. lia.
Qed.

End Tides.

(** [findHighTide_short_series_throws] at a rise and a fall. *)
Lemma findHighTide_short_series_throws_sample :
  findHighTide exampleDate exampleFormattedTime
    (payload [sample "00:00" "1.0"; sample "06:00" "4.0"; sample "12:00" "0.5"])
  = Throw TypeError.
Proof.
  apply (findHighTide_short_series_throws exampleDate exampleFormattedTime). cbn. lia.
Defined.

Section Fetching.

Variable Date_new : string -> JsDate.
Variables getFormattedDate getFormattedTime : JsDate -> string.
Variable service : string -> delivery.

Local Abbreviation final :=
  (getFinalTideResponse Date_new getFormattedTime service).
Local Abbreviation apology :=
  "Sorry, the National Oceanic tide service is experiencing a problem. Please try again later".

(** X9.  When the service answers 200 with a payload that has no
    [error] and a series with two tides, the turn calls [https.get]
    once and [tellWithCard] once, with the date, the city and the times
    of the first high, the low and the second high, and ends normally. *)
Theorem getFinalTideResponse_two_tides
    (cityStation : cityStation) (date : dateInfo) (session : session)
    (body : noaaResponse) (l : list prediction) (top1 bottom top2 : prediction) :
  service (requestUrl (station cityStation) date) = Response 200 (Some body) ->
  noaa_error body = None ->
  predictions body = Some l ->
  twoTideShape l top1 bottom top2 ->
  let speechOutput :=
    displayDate date ++ " in " ++ textOf (city cityStation)
      ++ ", the first high tide will be around " ++ getFormattedTime (Date_new (t top1))
      ++ ", followed by a low tide at around " ++ getFormattedTime (Date_new (t bottom))
      ++ ". The second high tide will be around " ++ getFormattedTime (Date_new (t top2)) in
  final cityStation date session
  = {| attributes := session;
       calls := [ HttpsGet (requestUrl (station cityStation) date);
                  TellWithCard speechOutput "CapeCodTides" speechOutput ];
       outcome := Ok tt |}.
Proof.
  intros Hservice Herror Hpred Hshape speechOutput. subst speechOutput.
  unfold getFinalTideResponse, makeTideRequest. rewrite Hservice.
  unfold onResponse, onEnd, findHighTide. rewrite Herror, Hpred. cbv zeta.
  rewrite (scanPredictions_twoTides _ _ _ _ Hshape). reflexivity.
Qed.

(** X10.  Whatever the service delivers, the final request calls
    [https.get] once, leaves the session attributes as they were, and
    then calls [tellWithCard] at most twice, each time with the title
    ["CapeCodTides"] and the speech as card content; when an exception
    escapes, nothing or only the apology has been said; and a status
    other than 200 always has the apology said first. *)
Theorem getFinalTideResponse_says_little
    (cityStation : cityStation) (date : dateInfo) (session : session) :
  let answer := final cityStation date session in
  exists tells,
    calls answer = HttpsGet (requestUrl (station cityStation) date) :: tells
    /\ attributes answer = session
    /\ (length tells <= 2)%nat
    /\ Forall (fun e => exists speech, e = TellWithCard speech "CapeCodTides" speech) tells
    /\ (forall e, outcome answer = Throw e ->
        tells = [] \/ tells = [TellWithCard apology "CapeCodTides" apology])
    /\ (forall statusCode body,
          service (requestUrl (station cityStation) date) = Response statusCode body ->
          statusCode <> 200 ->
          exists rest, tells = TellWithCard apology "CapeCodTides" apology :: rest).
Proof.
  intro answer. subst answer.
  unfold getFinalTideResponse, makeTideRequest.
  destruct (service _) as [message|statusCode body].
  - eexists. cbn [calls attributes outcome]. repeat split.
    + cbn. lia.
    + repeat constructor. eexists. reflexivity.
    + discriminate.
    + discriminate.
  - unfold onResponse, onEnd.
    destruct body as [obj|];
      [destruct (isSome (noaa_error obj));
       [|destruct (findHighTide Date_new getFormattedTime obj) as [highTide|e]]|];
      eexists; cbn [calls attributes outcome];
      (split; [reflexivity|]); (split; [reflexivity|]);
      destruct (statusCode =? 200)%Z eqn:E; cbn; repeat split; try lia;
      try (repeat constructor; eexists; reflexivity); auto; try discriminate;
      intros s b [= <- <-] Hne; try (apply Z.eqb_eq in E; contradiction);
      eexists; reflexivity.
Qed.

End Fetching.

Lemma twoTides_shape :
  twoTideShape twoTides (sample "06:00" "4.0") (sample "12:00" "0.5") (sample "18:00" "6.0").
Proof.
  exists (sample "00:00" "1.2"), [], (sample "03:00" "2.9"), [sample "06:00" "4.0"],
    (sample "09:00" "2.2"), [sample "12:00" "0.5"],
    (sample "15:00" "3.1"), [sample "18:00" "6.0"],
    [sample "21:00" "5.4"; sample "23:54" "4.9"].
  repeat split.
Qed.

(** [getFinalTideResponse_two_tides] at Plymouth, today, with the series
    [twoTides]. *)
Lemma getFinalTideResponse_two_tides_Plymouth :
  let plymouth := {| error := false; city := Some "Plymouth"; station := StationId 8446493 |} in
  let today := {| displayDate := "Today"; requestDateParam := "date=today" |} in
  getFinalTideResponse exampleDate exampleFormattedTime tidesService plymouth today newSession
  = {| attributes := newSession;
       calls := [ HttpsGet (requestUrl (station plymouth) today);
                  TellWithCard
                    "Today in Plymouth, the first high tide will be around 6:00, followed by a low tide at around 12:00. The second high tide will be around 18:00"
                    "CapeCodTides"
                    "Today in Plymouth, the first high tide will be around 6:00, followed by a low tide at around 12:00. The second high tide will be around 18:00" ];
       outcome := Ok tt |}.
Proof.
  intros plymouth today.
  exact (getFinalTideResponse_two_tides exampleDate exampleFormattedTime tidesService
           plymouth today newSession (payload twoTides) twoTides _ _ _
           eq_refl eq_refl eq_refl twoTides_shape).
Defined.

Lemma getCityStationFromIntent_resolved (i : intent) (assignDefault : bool) :
  error (getCityStationFromIntent i assignDefault) = false ->
  resolvedCity (getCityStationFromIntent i assignDefault) = true.
Proof.
  unfold getCityStationFromIntent, slotValue.
  destruct (City i) as [[[x|]]|]; try (destruct assignDefault; [reflexivity|discriminate]).
  destruct (truthy x) eqn:Hx; [|destruct assignDefault; [reflexivity|discriminate]].
  destruct (truthyProperty (STATIONS_get (toLowerCase x))) eqn:E; [|discriminate].
  intros _. unfold resolvedCity. cbn [error station city]. now rewrite E, Hx.
Qed.

Lemma getDateFromIntent_is_some (Date_new : string -> JsDate)
    (getFormattedDate : JsDate -> string) (i : intent) :
  exists date, getDateFromIntent Date_new getFormattedDate i = Some date.
Proof.
  unfold getDateFromIntent. destruct (slotValue (Date i)); eexists; reflexivity.
Qed.

Section Dialogs.

Variable Date_new : string -> JsDate.
Variables getFormattedDate getFormattedTime : JsDate -> string.
Variable service : string -> delivery.

Local Abbreviation handle' :=
  (handle Date_new getFormattedDate getFormattedTime service).
Local Abbreviation converse' :=
  (converse Date_new getFormattedDate getFormattedTime service).
Local Abbreviation final :=
  (getFinalTideResponse Date_new getFormattedTime service).

Lemma getFinalTideResponse_calls (cityStation : cityStation) (date : dateInfo)
    (session : session) :
  exists tells,
    calls (final cityStation date session)
    = HttpsGet (requestUrl (station cityStation) date) :: tells
    /\ forallb isTellWithCard tells = true.
Proof.
  unfold getFinalTideResponse, makeTideRequest.
  destruct (service _) as [message|statusCode body].
  - eexists; split; reflexivity.
  - destruct (onResponse _ _ _ _) as [cbs r]. cbn [calls].
    eexists; split; [reflexivity|].
    induction cbs as [|cb cbs IH]; [reflexivity|exact IH].
Qed.

Lemma getFinalTideResponse_attributes (cityStation : cityStation) (date : dateInfo)
    (session : session) :
  attributes (final cityStation date session) = session.
Proof.
  unfold getFinalTideResponse. now destruct (makeTideRequest _ _ _ _ _) as [[url cbs] r].
Qed.

Lemma getFinalTideResponse_calls_any_session (cityStation : cityStation)
    (date : dateInfo) (s s' : session) :
  calls (final cityStation date s) = calls (final cityStation date s').
Proof.
  unfold getFinalTideResponse. now destruct (makeTideRequest _ _ _ _ _) as [[url cbs] r].
Qed.

(** X11.  Every one-shot, dialog or supported-cities request is answered
    either with exactly one [ask] and nothing else, ending normally, or
    with one [https.get] followed only by [tellWithCard] calls, the
    session attributes left as they were. *)
Theorem handle_asks_or_fetches (r : request) (s : session) :
  let answer := handle' r s in
  (exists speechOutput repromptText,
     calls answer = [Ask speechOutput repromptText] /\ outcome answer = Ok tt)
  \/ (exists url tells,
        calls answer = HttpsGet url :: tells
        /\ forallb isTellWithCard tells = true
        /\ attributes answer = s).
Proof.
  intro answer. subst answer.
  assert (Hfinal : forall c d,
    exists url tells,
      calls (final c d s) = HttpsGet url :: tells
      /\ forallb isTellWithCard tells = true
      /\ attributes (final c d s) = s).
  { intros c d. destruct (getFinalTideResponse_calls c d s) as (tells & H1 & H2).
    exists (requestUrl (station c) d), tells.
    split; [exact H1|]. split; [exact H2|apply getFinalTideResponse_attributes]. }
  destruct r as [i|i|i]; cbn [handle].
  - unfold OneshotTideIntent, handleOneshotTideRequest.
    destruct (error (getCityStationFromIntent i true)).
    + left. eexists _, _. split; reflexivity.
    + destruct (getDateFromIntent Date_new getFormattedDate i).
      * right. apply Hfinal.
      * left. eexists _, _. split; reflexivity.
  - unfold DialogTideIntent.
    destruct (isSome (slotValue (City i))); [|destruct (isSome (slotValue (Date i)))].
    + unfold handleCityDialogRequest.
      destruct (error (getCityStationFromIntent i false)).
      * left. eexists _, _. split; reflexivity.
      * destruct (attributes_date s).
        -- right. apply Hfinal.
        -- left. eexists _, _. split; reflexivity.
    + unfold handleDateDialogRequest.
      destruct (getDateFromIntent Date_new getFormattedDate i).
      * destruct (attributes_city s).
        -- right. apply Hfinal.
        -- left. eexists _, _. split; reflexivity.
      * left. eexists _, _. split; reflexivity.
    + unfold handleNoSlotDialogRequest.
      destruct (attributes_city s); left; eexists _, _; split; reflexivity.
  - left. eexists _, _. split; reflexivity.
Qed.

Lemma handle_wellFormed (r : request) (s : session) :
  wellFormed s = true -> wellFormed (attributes (handle' r s)) = true.
Proof.
  intro Hs. destruct r as [i|i|i]; cbn [handle].
  - unfold OneshotTideIntent, handleOneshotTideRequest.
    destruct (error (getCityStationFromIntent i true)); [exact Hs|].
    destruct (getDateFromIntent_is_some Date_new getFormattedDate i) as [d ->].
    now rewrite getFinalTideResponse_attributes.
  - unfold DialogTideIntent.
    destruct (isSome (slotValue (City i))); [|destruct (isSome (slotValue (Date i)))].
    + unfold handleCityDialogRequest.
      destruct (error (getCityStationFromIntent i false)) eqn:E; [exact Hs|].
      destruct (attributes_date s) eqn:Ed.
      * now rewrite getFinalTideResponse_attributes.
      * cbn [respond attributes]. unfold wellFormed. cbn [attributes_city attributes_date].
        now apply getCityStationFromIntent_resolved.
    + unfold handleDateDialogRequest.
      destruct (getDateFromIntent Date_new getFormattedDate i); [|exact Hs].
      destruct (attributes_city s) eqn:Ec.
      * now rewrite getFinalTideResponse_attributes.
      * reflexivity.
    + unfold handleNoSlotDialogRequest. now destruct (attributes_city s).
  - exact Hs.
Qed.

(** X12.  Over any sequence of requests, the session attributes never
    hold a city and a date together, and a stored city is always one
    the resolver accepted (no error, a name, a truthy station). *)
Theorem converse_wellFormed (rs : list request) :
  forall s, wellFormed s = true -> wellFormed (converse' rs s) = true.
Proof.
  induction rs as [|r rs IH]; intros s Hs; [exact Hs|].
  cbn [converse]. apply IH. now apply handle_wellFormed.
Qed.

(** X13.  For a city the resolver accepts and a date value, the dialog
    that gives the city and then the date, the dialog that gives the
    date and then the city, and the one-shot request with both make the
    same calls on their last turn: one [https.get] for that station and
    that date, and what its answer brings. *)
Theorem routes_agree (cityName dateValue : string) :
  truthy cityName = true ->
  truthy dateValue = true ->
  error (getCityStationFromIntent (cityIntent cityName None) false) = false ->
  let both := OneshotTide {| City := valued cityName; Date := valued dateValue |} in
  let cityOnly := DialogTide {| City := valued cityName; Date := None |} in
  let dateOnly := DialogTide {| City := None; Date := valued dateValue |} in
  let cityStored := attributes (handle' cityOnly newSession) in
  let dateStored := attributes (handle' dateOnly newSession) in
  calls (handle' dateOnly cityStored) = calls (handle' both newSession)
  /\ calls (handle' cityOnly dateStored) = calls (handle' both newSession)
  /\ exists tells, calls (handle' both newSession)
       = HttpsGet
           ("https://tidesandcurrents.noaa.gov/api/datagetter?"
              ++ ("begin_date=" ++ Number_toString (getFullYear (Date_new dateValue))
                    ++ pad2 (plus1 (getMonth (Date_new dateValue)))
                    ++ pad2 (getDate (Date_new dateValue)) ++ "&range=24")
              ++ "&station=" ++ propertyText (STATIONS_get (toLowerCase cityName))
              ++ "&product=predictions&datum=MLLW&application=Alexa.CapeCod.Tides&units=english&time_zone=lst_ldt&format=json")
         :: tells.
Proof.
  intros Hcity Hdate Herr both cityOnly dateOnly cityStored dateStored.
  subst both cityOnly dateOnly cityStored dateStored.
  cbn [handle]. unfold OneshotTideIntent, handleOneshotTideRequest, DialogTideIntent,
    handleCityDialogRequest, handleDateDialogRequest.
  rewrite !(getDateFromIntent_valued _ _ _ _ Hdate).
  unfold getCityStationFromIntent, cityIntent, valued, slotValue in *.
  cbn [City Date value] in *. rewrite Hcity, Hdate in *. cbn [isSome].
  destruct (truthyProperty (STATIONS_get (toLowerCase cityName))); [|discriminate].
  cbn [error attributes_date attributes_city newSession respond attributes isSome].
  split; [apply getFinalTideResponse_calls_any_session|].
  split; [apply getFinalTideResponse_calls_any_session|].
  match goal with |- context [getFinalTideResponse _ _ _ ?c ?d ?s] =>
    destruct (getFinalTideResponse_calls c d s) as (tells & Hcalls & _) end.
  exists tells. rewrite Hcalls, requestUrl_text. reflexivity.
Qed.

(** X3.  A one-shot request with no city value and no date value asks
    the service for station 8446493 (Plymouth) with [date=today], and
    leaves the session attributes as they were. *)
Theorem oneshot_defaults (i : intent) (s : session) :
  slotValue (City i) = None ->
  slotValue (Date i) = None ->
  exists tells,
    calls (handle' (OneshotTide i) s)
    = HttpsGet "https://tidesandcurrents.noaa.gov/api/datagetter?date=today&station=8446493&product=predictions&datum=MLLW&application=Alexa.CapeCod.Tides&units=english&time_zone=lst_ldt&format=json"
      :: tells
    /\ forallb isTellWithCard tells = true
    /\ attributes (handle' (OneshotTide i) s) = s.
Proof.
  intros Hc Hd. cbn [handle].
  unfold OneshotTideIntent, handleOneshotTideRequest, getCityStationFromIntent,
    getDateFromIntent.
  rewrite Hc, Hd. cbn [negb error].
  match goal with |- context [getFinalTideResponse _ _ _ ?c ?d ?s] =>
    destruct (getFinalTideResponse_calls c d s) as (tells & Hcalls & Htells) end.
  exists tells. split; [exact Hcalls|]. split; [exact Htells|].
  apply getFinalTideResponse_attributes.
Qed.

End Dialogs.

(** [converse_wellFormed] at a conversation that starts anew. *)
Lemma converse_wellFormed_sample :
  wellFormed
    (converse exampleDate exampleFormattedDate exampleFormattedTime tidesService
       [ DialogTide {| City := None; Date := valued "2017-09-23" |};
         DialogTide {| City := valued "Nowhereville"; Date := None |};
         DialogTide {| City := valued "Hingham"; Date := None |};
         OneshotTide {| City := valued "Marion"; Date := None |};
         SupportedCities {| City := None; Date := None |};
         DialogTide {| City := None; Date := None |} ]
       newSession) = true.
Proof.
  apply (converse_wellFormed exampleDate exampleFormattedDate exampleFormattedTime
           tidesService). reflexivity.
Defined.

(** [routes_agree] at Plymouth and 2017-09-23. *)
Lemma routes_agree_Plymouth :
  let handle' := handle exampleDate exampleFormattedDate exampleFormattedTime tidesService in
  let both := OneshotTide {| City := valued "Plymouth"; Date := valued "2017-09-23" |} in
  let cityOnly := DialogTide {| City := valued "Plymouth"; Date := None |} in
  let dateOnly := DialogTide {| City := None; Date := valued "2017-09-23" |} in
  calls (handle' dateOnly (attributes (handle' cityOnly newSession)))
    = calls (handle' both newSession)
  /\ calls (handle' cityOnly (attributes (handle' dateOnly newSession)))
     = calls (handle' both newSession)
  /\ exists tells, calls (handle' both newSession)
       = HttpsGet "https://tidesandcurrents.noaa.gov/api/datagetter?begin_date=20170923&range=24&station=8446493&product=predictions&datum=MLLW&application=Alexa.CapeCod.Tides&units=english&time_zone=lst_ldt&format=json"
         :: tells.
Proof.
  exact (routes_agree exampleDate exampleFormattedDate exampleFormattedTime tidesService
           "Plymouth" "2017-09-23" eq_refl eq_refl eq_refl).
Defined.

(** [oneshot_defaults] at a request with empty slots. *)
Lemma oneshot_defaults_sample :
  exists tells,
    calls (handle exampleDate exampleFormattedDate exampleFormattedTime tidesService
             (OneshotTide {| City := valued ""; Date := Some {| value := None |} |})
             newSession)
    = HttpsGet "https://tidesandcurrents.noaa.gov/api/datagetter?date=today&station=8446493&product=predictions&datum=MLLW&application=Alexa.CapeCod.Tides&units=english&time_zone=lst_ldt&format=json"
      :: tells
    /\ forallb isTellWithCard tells = true
    /\ attributes
         (handle exampleDate exampleFormattedDate exampleFormattedTime tidesService
            (OneshotTide {| City := valued ""; Date := Some {| value := None |} |})
            newSession) = newSession.
Proof.
  exact (oneshot_defaults exampleDate exampleFormattedDate exampleFormattedTime tidesService
           {| City := valued ""; Date := Some {| value := None |} |} newSession
           eq_refl eq_refl).
Defined.

(** ** Heights on and next to the half feet *)

Lemma Qfloor_half (n : Z) : Qfloor (inject_Z n + (1 # 2)) = n.
Proof.
  pose proof (Qfloor_le (inject_Z n + (1 # 2))) as Hlo.
  pose proof (Qlt_floor (inject_Z n + (1 # 2))) as Hhi.
  rewrite inject_Z_plus in Hhi. change (inject_Z 1) with 1%Q in Hhi.
  assert (Qfloor (inject_Z n + (1 # 2)) < n + 1).
  { rewrite Zlt_Qlt, inject_Z_plus. change (inject_Z 1) with 1%Q. lra. }
  assert (n < Qfloor (inject_Z n + (1 # 2)) + 1).
  { rewrite Zlt_Qlt, inject_Z_plus. change (inject_Z 1) with 1%Q. lra. }
  lia.
Qed.

(** X16.  A height that is a whole number of feet, or a whole number and
    a half, from zero up to 2^52, is formatted as that number:
    ["<n> feet"] and ["<n> and a half feet"]. *)
Theorem getFormattedHeight_exact_on_halves (n : Z) :
  0 <= n < 2 ^ 52 ->
  getFormattedHeight (Num (inject_Z n)) = string_of_Z n ++ " feet"
  /\ getFormattedHeight (Num (inject_Z n + (1 # 2))) = string_of_Z n ++ " and a half feet".
Proof.
  intros [Hn _].
  assert (H0 : (0 <= inject_Z n)%Q) by (change 0%Q with (inject_Z 0); now rewrite <- Zle_Qle).
  split.
  - destruct (halfFoot_bands (inject_Z n) H0) as (m & half & Hf & Hb & _).
    cbv zeta in Hb. destruct Hb as (Hb & _). rewrite Qfloor_Z in Hb.
    destruct Hb as [-> ->]; [lra|].
    unfold getFormattedHeight, heightParts.
    replace (lt (Num (inject_Z n)) (Num 0)) with false by (symmetry; now apply lt_Num_false).
    rewrite Hf. reflexivity.
  - assert (H1 : (0 <= inject_Z n + (1 # 2))%Q) by lra.
    destruct (halfFoot_bands _ H1) as (m & half & Hf & Hb & _).
    cbv zeta in Hb. destruct Hb as (_ & Hb & _). rewrite Qfloor_half in Hb.
    destruct Hb as [-> ->]; [split; lra|].
    unfold getFormattedHeight, heightParts.
    replace (lt (Num (inject_Z n + (1 # 2))) (Num 0)) with false
      by (symmetry; now apply lt_Num_false).
    rewrite Hf. reflexivity.
Qed.

Lemma getFormattedHeight_exact_on_halves_7 :
  getFormattedHeight (Num (inject_Z 7)) = "7 feet"
  /\ getFormattedHeight (Num (inject_Z 7 + (1 # 2))) = "7 and a half feet".
Proof.
  apply (getFormattedHeight_exact_on_halves 7). split; [lia|reflexivity].
Defined.

(** X17.  A height between -0.75 and 0 is formatted without a sign:
    ["0 and a half feet"] at -0.25 and below, ["0 feet"] above. *)
Theorem getFormattedHeight_small_negative (q : Q) :
  (- (3 # 4) < q)%Q -> (q < 0)%Q ->
  getFormattedHeight (Num q)
  = if Qle_bool q (- (1 # 4)) then "0 and a half feet" else "0 feet".
Proof.
  intros Hlo Hhi.
  assert (Ha : Qabs q == - q) by (apply Qabs_neg; lra).
  assert (Hfl : Qfloor (Qabs q) = 0).
  { pose proof (Qfloor_le (Qabs q)) as H1. pose proof (Qlt_floor (Qabs q)) as H2.
    rewrite inject_Z_plus in H2. change (inject_Z 1) with 1%Q in H2.
    assert (Qfloor (Qabs q) < 1) by (rewrite Zlt_Qlt; change (inject_Z 1) with 1%Q; lra).
    assert (-1 < Qfloor (Qabs q)) by (rewrite Zlt_Qlt; change (inject_Z (-1)) with (-(1))%Q; lra).
    lia. }
  destruct (halfFoot_bands (Qabs q) (Qabs_nonneg q)) as (m & half & Hf & Hb & _).
  cbv zeta in Hb. rewrite Hfl in Hb. change (inject_Z 0) with 0%Q in Hb.
  destruct Hb as (Hb1 & Hb2 & Hb3).
  unfold getFormattedHeight, heightParts.
  replace (lt (Num q) (Num 0)) with true by (symmetry; now apply lt_Num).
  cbn [Math_abs]. rewrite Hf. cbn [negate Number_toString].
  destruct (Qle_bool q (- (1 # 4))) eqn:E.
  - apply Qle_bool_iff in E. destruct Hb2 as [-> ->]; [split; lra|]. reflexivity.
  - assert (- (1 # 4) < q)%Q.
    { apply Qnot_le_lt. intro L. apply Qle_bool_iff in L. congruence. }
    destruct Hb1 as [-> ->]; [lra|]. reflexivity.
Qed.

Lemma getFormattedHeight_small_negative_0_3 :
  getFormattedHeight (Num (- (3 # 10))) = "0 and a half feet".
Proof.
  apply (getFormattedHeight_small_negative (- (3 # 10))); unfold Qlt; simpl; lia.
Defined.

(** ** Names the directory lookup accepts *)

Lemma toLowerCase_idempotent (s : string) : toLowerCase (toLowerCase s) = toLowerCase s.
Proof.
  induction s as [|c s IH]; cbn; [reflexivity|].
  now rewrite lowerChar_idempotent, IH.
Qed.

Lemma inherits_lower_case (s : string) :
  inherits (toLowerCase s) = true ->
  toLowerCase s = "constructor" \/ toLowerCase s = "__proto__".
Proof.
  pose proof (toLowerCase_idempotent s) as Hk.
  set (k := toLowerCase s) in *. clearbody k.
  unfold inherits, Object_prototype. cbn [existsb].
  rewrite !orb_true_iff.
  intros H.
  repeat match type of H with
         | _ \/ _ => destruct H as [H|H]
         end;
    try discriminate H;
    apply String.eqb_eq in H; subst k;
    first [now left | now right | discriminate Hk].
Qed.

(** X4.  When the city resolver accepts a city value, it keeps the name
    as said, and the station is the identifier the directory has for
    the lower-cased name, or else the name is ["constructor"] or
    ["__proto__"] in some letter case and the station is the property
    inherited under that name. *)
Theorem getCityStationFromIntent_accepts (cityName : string) (date : option slot)
    (assignDefault : bool) :
  truthy cityName = true ->
  let resolved := getCityStationFromIntent (cityIntent cityName date) assignDefault in
  error resolved = false ->
  city resolved = Some cityName
  /\ ((exists id, assoc (toLowerCase cityName) STATIONS = Some id
                  /\ station resolved = StationId id)
      \/ (toLowerCase cityName = "constructor" /\ station resolved = Inherited "constructor")
      \/ (toLowerCase cityName = "__proto__" /\ station resolved = Inherited "__proto__")).
Proof.
  intros Hcity resolved. subst resolved.
  unfold getCityStationFromIntent, cityIntent, slotValue. cbn [City value].
  rewrite Hcity.
  destruct (truthyProperty (STATIONS_get (toLowerCase cityName))) eqn:E;
    cbn [error city station]; [intros _|discriminate].
  split; [reflexivity|].
  unfold STATIONS_get in *.
  destruct (assoc (toLowerCase cityName) STATIONS) as [id|] eqn:Ea.
  - left. now exists id.
  - destruct (inherits (toLowerCase cityName)) eqn:Ei; [|discriminate].
    destruct (inherits_lower_case _ Ei) as [Hk|Hk]; rewrite Hk; auto.
Qed.

Lemma getCityStationFromIntent_accepts_proto :
  city (getCityStationFromIntent (cityIntent "__PROTO__" None) false) = Some "__PROTO__"
  /\ ((exists id, assoc (toLowerCase "__PROTO__") STATIONS = Some id
                  /\ station (getCityStationFromIntent (cityIntent "__PROTO__" None) false)
                     = StationId id)
      \/ (toLowerCase "__PROTO__" = "constructor"
          /\ station (getCityStationFromIntent (cityIntent "__PROTO__" None) false)
             = Inherited "constructor")
      \/ (toLowerCase "__PROTO__" = "__proto__"
          /\ station (getCityStationFromIntent (cityIntent "__PROTO__" None) false)
             = Inherited "__proto__")).
Proof.
  exact (getCityStationFromIntent_accepts "__PROTO__" None false eq_refl eq_refl).
Defined.

Lemma STATIONS_assoc (k : string) (id : Z) :
  In (k, id) STATIONS -> assoc k STATIONS = Some id /\ 0 < id.
Proof.
  unfold STATIONS. cbn [In].
  intros H.
  repeat match type of H with
         | _ \/ _ => destruct H as [H|H]
         | False => destruct H
         end;
    injection H as <- <-; split; reflexivity.
Qed.

Lemma stationsText_acc (l : list (string * Z)) :
  forall acc,
    fold_left (fun stationList entry => stationList ++ fst entry ++ ", ") l acc
    = acc ++ fold_left (fun stationList entry => stationList ++ fst entry ++ ", ") l "".
Proof.
  induction l as [|e l IH]; intro acc; cbn [fold_left].
  - clear. induction acc as [|c acc IH]; cbn; [reflexivity|now rewrite <- IH].
  - rewrite (IH (acc ++ fst e ++ ", ")), (IH ("" ++ fst e ++ ", ")).
    cbn [append]. now rewrite !append_assoc.
Qed.

(** X14.  Every entry of [STATIONS] is named in the text of
    [getAllStationsText], followed by a comma, has a positive
    identifier, and is resolved to that identifier, without error, from
    every city value that lower-cases to its key. *)
Theorem listed_towns_resolve (k : string) (id : Z) :
  In (k, id) STATIONS ->
  (exists before after, getAllStationsText = before ++ k ++ ", " ++ after)
  /\ 0 < id
  /\ forall cityName date assignDefault,
       toLowerCase cityName = k ->
       getCityStationFromIntent (cityIntent cityName date) assignDefault
       = {| error := false; city := Some cityName; station := StationId id |}.
Proof.
  intro Hin. destruct (STATIONS_assoc k id Hin) as [Hassoc Hpos].
  split; [|split; [exact Hpos|]].
  - unfold getAllStationsText.
    destruct (in_split _ _ Hin) as (l1 & l2 & ->).
    rewrite fold_left_app. cbn [fold_left fst].
    rewrite stationsText_acc.
    exists (fold_left (fun stationList entry => stationList ++ fst entry ++ ", ") l1 ""),
      (fold_left (fun stationList entry => stationList ++ fst entry ++ ", ") l2 "").
    now rewrite !append_assoc.
  - intros cityName date assignDefault <-.
    now apply getCityStationFromIntent_known.
Qed.

Lemma listed_towns_resolve_woods_hole :
  (exists before after, getAllStationsText = before ++ "woods hole" ++ ", " ++ after)
  /\ 0 < 8447939
  /\ forall cityName date assignDefault,
       toLowerCase cityName = "woods hole" ->
       getCityStationFromIntent (cityIntent cityName date) assignDefault
       = {| error := false; city := Some cityName; station := StationId 8447939 |}.
Proof.
  apply (listed_towns_resolve "woods hole" 8447939).
  unfold STATIONS. cbn [In]. do 11 right. left. reflexivity.
Defined.

(** ** The request date *)

Lemma forallb_range (f : Z -> bool) (a : Z) (n : nat) :
  forallb f (map (fun i => a + Z.of_nat i) (seq 0 n)) = true ->
  forall z, a <= z < a + Z.of_nat n -> f z = true.
Proof.
  intros H z Hz. rewrite forallb_forall in H. apply H.
  apply in_map_iff. exists (Z.to_nat (z - a)). split; [lia|].
  apply in_seq. lia.
Qed.

Lemma readsBack_spec (n : nat) (text : Z -> string) (z : Z) :
  readsBack n text z = true -> readDigits n (text z) = Some z.
Proof.
  unfold readsBack. destruct (readDigits n (text z)) as [z'|]; [|discriminate].
  intro H. apply Z.eqb_eq in H. now subst.
Qed.

Lemma pad2_reads_back (z : Z) :
  0 <= z <= 99 -> readDigits 2 (pad2 (Int z)) = Some z.
Proof.
  intro Hz. apply readsBack_spec with (text := fun z => pad2 (Int z)).
  apply (forallb_range _ 0 100); [vm_compute; reflexivity|lia].
Qed.

Lemma year_reads_back (y : Z) :
  1000 <= y <= 9999 -> readDigits 4 (Number_toString (Int y)) = Some y.
Proof.
  intro Hy. apply readsBack_spec with (text := fun z => Number_toString (Int z)).
  apply (forallb_range _ 1000 (Z.to_nat 9000));
    [vm_compute; reflexivity|rewrite Z2Nat.id by lia; lia].
Qed.

Section Dates.

Variable Date_new : string -> JsDate.
Variable getFormattedDate : JsDate -> string.

(** X15.  For a date value the host reads as a date with a four-digit
    year, the query parameter is [begin_date=] followed by the year in
    four digits, the month (counted from 1) in two and the day in two,
    then [&range=24]: reading the digits back gives the year, the month
    and the day. *)
Theorem getDateFromIntent_begin_date
    (city : option slot) (dateValue : string) (year month day hours minutes : Z) :
  truthy dateValue = true ->
  Date_new dateValue = DateTime year month day hours minutes ->
  1000 <= year <= 9999 -> 0 <= month <= 11 -> 1 <= day <= 31 ->
  exists yyyy mm dd,
    getDateFromIntent Date_new getFormattedDate {| City := city; Date := valued dateValue |}
    = Some {| displayDate := getFormattedDate (Date_new dateValue);
              requestDateParam := "begin_date=" ++ yyyy ++ mm ++ dd ++ "&range=24" |}
    /\ readDigits 4 yyyy = Some year
    /\ readDigits 2 mm = Some (month + 1)
    /\ readDigits 2 dd = Some day.
Proof.
  intros Hvalue Hdate Hy Hm Hd.
  exists (Number_toString (Int year)), (pad2 (Int (month + 1))), (pad2 (Int day)).
  split; [|split; [|split]].
  - rewrite (getDateFromIntent_valued _ _ _ _ Hvalue), Hdate. reflexivity.
  - now apply year_reads_back.
  - apply pad2_reads_back. lia.
  - apply pad2_reads_back. lia.
Qed.

End Dates.

Lemma getDateFromIntent_begin_date_sample :
  exists yyyy mm dd,
    getDateFromIntent exampleDate exampleFormattedDate
      {| City := None; Date := valued "2017-09-03" |}
    = Some {| displayDate := exampleFormattedDate (exampleDate "2017-09-03");
              requestDateParam := "begin_date=" ++ yyyy ++ mm ++ dd ++ "&range=24" |}
    /\ readDigits 4 yyyy = Some 2017
    /\ readDigits 2 mm = Some (8 + 1)
    /\ readDigits 2 dd = Some 3.
Proof.
  apply (getDateFromIntent_begin_date exampleDate exampleFormattedDate
           None "2017-09-03" 2017 8 3 0 0); try reflexivity; lia.
Defined.
